(** * tools/create_pr_or_update_existing_one.py

    A shallow embedding of the dependency-update automation script and the
    properties its specification states about it.

    The script is orchestration glue: it runs [git] as a child process, asks
    an external collaborator which dependencies changed, and talks to the
    hosting platform over HTTP.  The embedding keeps that shape:

    - every function of the script is a computation in a state-and-exception
      monad [M], written in the order in which Python evaluates it;
    - the process state is the environment mapping, the working directory
      and the history of external interactions performed so far;
    - everything the script cannot decide by itself (exit statuses, HTTP
      responses, the dependency diff, which directories exist, where the
      script is installed) is a field of a [World]; each answer may depend
      on the whole history up to and including the request.

    [logging] calls only write to the log stream and are left out.  A
    missing [git] executable, a connection that cannot be established and a
    response body that is not JSON of the documented shape are not
    modelled: child processes end with an exit status and requests with a
    response. *)

From stdpp Require Import base strings list gmap pretty.
From Stdlib Require Import Ascii ZArith Lia.

Local Open Scope Z_scope.

(** ** Values exchanged with the outside *)

(** A JSON scalar as Python sees it. *)
Inductive pyval :=
| PNone
| PBool (b : bool)
| PInt (n : Z)
| PStr (s : string).

(** A Python [dict] with string keys: insertion ordered, keys unique. *)
Definition pydict := list (string * pyval).

Fixpoint dict_get (k : string) (d : pydict) : option pyval :=
  match d with
  | [] => None
  | (k', v) :: d' => if String.eqb k k' then Some v else dict_get k d'
  end.

(** [d[k] = v]: overwrite in place when the key exists, append otherwise. *)
Fixpoint dict_set (k : string) (v : pyval) (d : pydict) : pydict :=
  match d with
  | [] => [(k, v)]
  | (k', v') :: d' =>
      if String.eqb k k' then (k, v) :: d' else (k', v') :: dict_set k v d'
  end.

(** One element of the platform's pull-request listing; [number] is the only
    field the script reads.  The platform numbers pull requests from 1. *)
Record PullRequest := { number : positive }.

(** A [requests.Response]: the status line and the decoded body. *)
Record Response (A : Type) := { status_code : Z; json : A }.
Arguments status_code {A} _.
Arguments json {A} _.

Definition headers := list (string * string).

(** The statuses on which [raise_for_status] raises: 4xx and 5xx. *)
Definition http_error {A} (response : Response A) : bool :=
  (400 <=? status_code response) && (status_code response <? 600).

(** External interactions, in the order they happen.  A child process and
    the dependency query run in the working directory of the moment, which
    is recorded with them. *)
Inductive Event :=
| EvRun (dir : string) (argv : list string)
| EvQuery (dir : string) (all_packages : bool)
          (base_branch python_version src_dir : string)
| EvGet (url : string)
| EvPost (url : string) (hdrs : headers) (payload : pydict).

Inductive exn :=
| CalledProcessError (returncode : Z) (argv : list string)
| HTTPError (status : Z)
| KeyError (key : string)
| TypeError (msg : string)
| ValueError (msg : string)
| IntLiteralError (literal : string)   (* the ValueError of [int()] *)
| FileNotFoundError (path : string).

(** The part of the run the script does not control. *)
Record World := {
  (** [Path(__file__).parent.parent / "napari_repo"], absolute; it depends on
      where the script is installed. *)
  REPO_DIR : string;
  (** Which absolute paths are directories one can enter. *)
  is_dir : string → bool;
  (** Exit status of the child process that is the last event of the history. *)
  returncode_of : list Event → Z;
  (** Answer of the dependency diff query that is the last event. *)
  changed_dependencies : list Event → list string;
  (** Response to the GET that is the last event. *)
  get_response : list Event → Response (list PullRequest);
  (** Response to the POST that is the last event. *)
  post_response : list Event → Response pydict;
  (** [sys.get_int_max_str_digits()]: the longest decimal literal [int]
      converts, 4300 unless configured otherwise; 0 when there is no limit. *)
  int_max_str_digits : nat;
  (** What [int] makes of a literal that is not pure ASCII (it accepts the
      decimal digits and the white space of other scripts); [None] when it
      raises [ValueError]. *)
  int_of_unicode : string → option Z
}.

(** ** Process state and the monad *)

Record State := {
  environ : gmap string string;
  cwd : string;
  trace : list Event
}.

Definition set_cwd (d : string) (s : State) : State :=
  {| environ := environ s; cwd := d; trace := trace s |}.

Definition log_event (e : Event) (s : State) : State :=
  {| environ := environ s; cwd := cwd s; trace := trace s ++ [e] |}.

Inductive Result (A : Type) :=
| Ok (a : A)
| Raise (e : exn).
Arguments Ok {A} a.
Arguments Raise {A} e.

Definition M (A : Type) : Type := State → Result A * State.

#[global] Instance M_ret : MRet M := λ A a s, (Ok a, s).

#[global] Instance M_bind : MBind M := λ A B f m s,
  match m s with
  | (Ok a, s') => f a s'
  | (Raise e, s') => (Raise e, s')
  end.

Definition raise {A} (e : exn) : M A := λ s, (Raise e, s).

(** [try: c finally: f].  The [finally] block always runs; an exception it
    raises replaces the outcome of [c]. *)
Definition try_finally {A} (c : M A) (f : M unit) : M A := λ s,
  match c s with
  | (r, s1) =>
      match f s1 with
      | (Ok _, s2) => (r, s2)
      | (Raise e, s2) => (Raise e, s2)
      end
  end.

(** ** Python string helpers *)

Definition nl : string := String "010"%char "".

(** [sep.join(xs)] *)
Fixpoint join (sep : string) (xs : list string) : string :=
  match xs with
  | [] => ""
  | [x] => x
  | x :: rest => x +:+ sep +:+ join sep rest
  end.

(** [s.split(sep)] for a one-character separator: never empty. *)
Fixpoint split (sep : ascii) (s : string) : list string :=
  match s with
  | EmptyString => [EmptyString]
  | String c r =>
      if Ascii.eqb c sep then EmptyString :: split sep r
      else match split sep r with
           | x :: xs => String c x :: xs
           | [] => [String c EmptyString]
           end
  end.

(** [str(x)] of an optional string, as f-strings format it. *)
Definition str_opt (o : option string) : string := default "None" o.

(** [bool(s)] of a string. *)
Definition nonempty (s : string) : bool := negb (String.eqb s "").

(** [bool(x)] of an optional integer: [None] and [0] are false. *)
Definition truthy (o : option Z) : bool :=
  match o with
  | None => false
  | Some n => negb (n =? 0)
  end.

(** *** [int(s)] on a decimal literal

    On a pure ASCII literal: surrounding white space (tab, line feed,
    vertical tab, form feed, carriage return, space), one optional sign,
    then digits that may be separated by single underscores; a literal of
    more than 640 digits that exceeds the interpreter's limit is refused.
    What [int] makes of any other literal is the world's to say. *)

Definition is_space (c : ascii) : bool :=
  let n := nat_of_ascii c in
  ((9 <=? n)%nat && (n <=? 13)%nat) || (n =? 32)%nat.

Fixpoint lstrip (s : string) : string :=
  match s with
  | String c r => if is_space c then lstrip r else s
  | EmptyString => s
  end.

Definition strip (s : string) : string :=
  String.rev (lstrip (String.rev (lstrip s))).

Definition digit_val (c : ascii) : option Z :=
  let n := nat_of_ascii c in
  if ((48 <=? n)%nat && (n <=? 57)%nat) then Some (Z.of_nat n - 48) else None.

Fixpoint digits (acc : Z) (after_digit : bool) (s : string) : option Z :=
  match s with
  | EmptyString => if after_digit then Some acc else None
  | String c r =>
      if Ascii.eqb c "_"%char then
        if after_digit then digits acc false r else None
      else
        match digit_val c with
        | Some d => digits (10 * acc + d) true r
        | None => None
        end
  end.

Fixpoint is_ascii (s : string) : bool :=
  match s with
  | EmptyString => true
  | String c r => (nat_of_ascii c <? 128)%nat && is_ascii r
  end.

Fixpoint count_digits (s : string) : nat :=
  match s with
  | EmptyString => 0
  | String c r =>
      match digit_val c with
      | Some _ => S (count_digits r)
      | None => count_digits r
      end
  end.

(** The guard on long literals: it looks at literals of more than 640
    digits, and refuses those longer than a non-zero limit. *)
Definition exceeds_digit_limit (w : World) (s : string) : bool :=
  (640 <? count_digits s)%nat
  && (0 <? int_max_str_digits w)%nat
  && (int_max_str_digits w <? count_digits s)%nat.

Definition int_digits (w : World) (s : string) : option Z :=
  if exceeds_digit_limit w s then None else digits 0 false s.

Definition py_int (w : World) (s : string) : option Z :=
  if is_ascii s then
    match strip s with
    | String "+"%char r => int_digits w r
    | String "-"%char r => Z.opp <$> int_digits w r
    | t => int_digits w t
    end
  else int_of_unicode w s.

(** ** The script *)

(** GitHub API base URL *)
Definition BASE_URL : string := "https://api.github.com".

Section Script.

Context (w : World).

(** *** Primitives of the runtime *)

(** [os.environ.get(k)] *)
Definition environ_get (k : string) : M (option string) :=
  λ s, (Ok (environ s !! k), s).

(** [os.environ.get(k, d)] *)
Definition environ_get_default (k d : string) : M string :=
  λ s, (Ok (default d (environ s !! k)), s).

(** [os.environ[k]] *)
Definition environ_getitem (k : string) : M string :=
  λ s, match environ s !! k with
       | Some v => (Ok v, s)
       | None => (Raise (KeyError k), s)
       end.

(** [os.getcwd()]: fails when the working directory is gone. *)
Definition getcwd : M string :=
  λ s, if is_dir w (cwd s) then (Ok (cwd s), s)
       else (Raise (FileNotFoundError (cwd s)), s).

(** [os.chdir(path)] *)
Definition chdir (path : string) : M unit :=
  λ s, if is_dir w path then (Ok (), set_cwd path s)
       else (Raise (FileNotFoundError path), s).

(** [subprocess.run(argv, check=True)]: the child runs in the current
    directory; a non-zero exit status raises. *)
Definition subprocess_run (argv : list string) : M unit :=
  λ s, let s' := log_event (EvRun (cwd s) argv) s in
       let rc := returncode_of w (trace s') in
       if rc =? 0 then (Ok (), s') else (Raise (CalledProcessError rc argv), s').

(** The external collaborator [check_updated_packages.get_changed_dependencies]. *)
Definition get_changed_dependencies
    (all_packages : bool) (base_branch python_version src_dir : string)
    : M (list string) :=
  λ s, let s' := log_event
                   (EvQuery (cwd s) all_packages base_branch python_version src_dir) s in
       (Ok (changed_dependencies w (trace s')), s').

(** [requests.get(url)] *)
Definition requests_get (url : string) : M (Response (list PullRequest)) :=
  λ s, let s' := log_event (EvGet url) s in
       (Ok (get_response w (trace s')), s').

(** [requests.post(url, headers=hdrs, json=payload)] *)
Definition requests_post (url : string) (hdrs : headers) (payload : pydict)
    : M (Response pydict) :=
  λ s, let s' := log_event (EvPost url hdrs payload) s in
       (Ok (post_response w (trace s')), s').

(** [response.raise_for_status()]: client and server errors raise. *)
Definition raise_for_status {A} (response : Response A) : M unit :=
  if http_error response
  then raise (HTTPError (status_code response))
  else mret ().

(** *** [cd]

    Change directory to the given path and return to the previous one
    afterwards.  The body of the [with] statement is the argument. *)
Definition cd {A} (path : string) (body : M A) : M A :=
  current_dir ← getcwd;
  try_finally (chdir path;; body) (chdir current_dir).

Definition _setup_git_author : M unit :=
  subprocess_run ["git"; "config"; "--global"; "user.name"; "napari-bot"];;
  subprocess_run ["git"; "config"; "--global"; "user.email";
                  "napari-bot@users.noreply.github.com"].

(** Create a commit calling git. *)
Definition create_commit (message branch_name : string) : M unit :=
  cd (REPO_DIR w)
     ((if nonempty branch_name
       then subprocess_run ["git"; "checkout"; "-B"; branch_name]
       else mret ());;
      subprocess_run ["git"; "add"; "-u"];;
      subprocess_run ["git"; "commit"; "-m"; message]).

(** Push the current branch to the remote. *)
Definition push (branch_name : string) (update : bool) : M unit :=
  cd (REPO_DIR w)
     (if update
      then subprocess_run ["git"; "push"; "--force"; "--set-upstream";
                           "napari-bot"; branch_name]
      else subprocess_run ["git"; "push"; "--force"; "--set-upstream";
                           "origin"; branch_name]).

Definition backtick (x : string) : string := "`" +:+ x +:+ "`".

Definition commit_message (branch_name : string) : M string :=
  changed_direct ← cd (REPO_DIR w)
                      (get_changed_dependencies false branch_name "3.11" (REPO_DIR w));
  match changed_direct with
  | [] => mret "Update indirect dependencies"
  | _ => mret ("Update " +:+ join ", " (backtick <$> changed_direct))
  end.

Definition long_description (branch_name : string) : M string :=
  all_changed ← cd (REPO_DIR w)
                   (get_changed_dependencies true branch_name "3.11" (REPO_DIR w));
  mret ("Updated packages: " +:+ join ", " (backtick <$> all_changed)).

Definition update_own_pr (pr_number : Z) (access_token : option string)
    (base_branch repo : string) : M unit :=
  let hdrs := [("Authorization", "token " +:+ str_opt access_token)] in
  title ← commit_message base_branch;
  body ← long_description base_branch;
  let payload := [("title", PStr title); ("body", PStr body)] in
  let url := BASE_URL +:+ "/repos/" +:+ repo +:+ "/pulls/" +:+ pretty pr_number in
  response ← requests_post url hdrs payload;
  raise_for_status response.

(** check if PR for branch exists *)
Definition list_pr_for_branch (branch_name : string)
    (access_token : option string) (repo : string) : M (option Z) :=
  let org_name := default "" (head (split "/" repo)) in
  let url := BASE_URL +:+ "/repos/" +:+ repo +:+ "/pulls?state=open&head="
             +:+ org_name +:+ ":" +:+ branch_name in
  response ← requests_get url;
  raise_for_status response;;
  match json response with
  | pr :: _ => mret (Some (Z.pos (number pr)))
  | [] => mret None
  end.

Definition create_pr (base_branch new_branch : string)
    (access_token : option string) (repo source_user : string) : M unit :=
  let hdrs := [("Authorization", "token " +:+ str_opt access_token)] in
  title ← commit_message base_branch;
  body ← long_description base_branch;
  let payload := [("title", PStr title); ("body", PStr body);
                  ("head", PStr new_branch); ("base", PStr base_branch);
                  ("maintainer_can_modify", PBool true)] in
  let payload := if nonempty source_user
                 then dict_set "head" (PStr (source_user +:+ ":" +:+ new_branch)) payload
                 else payload in
  let pull_request_url := BASE_URL +:+ "/repos/" +:+ repo +:+ "/pulls" in
  response ← requests_post pull_request_url hdrs payload;
  raise_for_status response;;
  match dict_get "html_url" (json response) with
  | Some _ => mret ()
  | None => raise (KeyError "html_url")
  end.

(** Create a PR. *)
Definition create_pr_with_push (branch_name : string)
    (access_token : option string) (repo : string) : M unit :=
  let new_branch_name :=
    if String.eqb branch_name "main" then "auto-update-dependencies"
    else "auto-update-dependencies-" +:+ branch_name in
  repo ← (if nonempty repo then mret repo
          else environ_get_default "GITHUB_REPOSITORY" "napari/napari");
  cd (REPO_DIR w) (subprocess_run ["git"; "checkout"; "-B"; new_branch_name]);;
  message ← commit_message branch_name;
  create_commit message "";;
  push new_branch_name false;;
  pr_number ← list_pr_for_branch new_branch_name access_token repo;
  if truthy pr_number
  then update_own_pr (default 0 pr_number) access_token branch_name repo
  else create_pr branch_name new_branch_name access_token repo "".

(** Add a comment to an existing PR. *)
Definition add_comment_to_pr (pull_request_number : Z) (message : string)
    (access_token : option string) (repo : string) : M unit :=
  token ← environ_get "GITHUB_TOKEN";
  let hdrs := [("Authorization", "token " +:+ str_opt token)] in
  let payload := [("body", PStr message)] in
  let comment_url := BASE_URL +:+ "/repos/" +:+ repo +:+ "/issues/"
                     +:+ pretty pull_request_number +:+ "/comments" in
  response ← requests_post comment_url hdrs payload;
  raise_for_status response.

(** Get the PR number from the environment based on the PR_NUMBER variable. *)
Definition get_pr_number : M Z :=
  pr_number ← environ_get "PR_NUMBER";
  match pr_number with
  | None => raise (TypeError "int() argument must be a string, a bytes-like object or a real number, not 'NoneType'")
  | Some lit =>
      match py_int w lit with
      | Some n => mret n
      | None => raise (IntLiteralError lit)
      end
  end.

(** Update an existing PR. *)
Definition update_pr (branch_name : string)
    (access_token bot_access_token : option string) : M unit :=
  pr_number ← get_pr_number;
  target_repo ← environ_get "FULL_NAME";
  let new_branch_name := "auto-update-dependencies/" +:+ str_opt target_repo
                         +:+ "/" +:+ branch_name in
  message ← commit_message branch_name;
  create_commit message new_branch_name;;
  comment_content ← long_description ("origin/" +:+ branch_name);
  let comment_content := comment_content +:+ nl +:+ nl
    +:+ "This workflow cannot automatically update your PR or create PR to your repository. " in
  let comment_content := comment_content
    +:+ "But you could open such PR by clicking the link:" in
  let comment_content := comment_content
    +:+ ("https://github.com/" +:+ str_opt target_repo +:+ "/compare/" +:+ branch_name
         +:+ "...napari-bot:" +:+ new_branch_name +:+ ".") in
  let comment_content := comment_content +:+ nl +:+ nl in
  let comment_content := comment_content
    +:+ "You could also get the updated files from the " in
  let comment_content := comment_content
    +:+ ("https://github.com/napari-bot/napari/tree/" +:+ new_branch_name
         +:+ "/resources/constraints.") in
  let comment_content := comment_content
    +:+ "Or ask the maintainers to provide you content of the constraints artifact." in
  let comment_content := comment_content
    +:+ "from the run https://github.com/PartSeg/napari/actions/runs/{os.environ.get('GITHUB_RUN_ID')}" in
  push new_branch_name true;;
  let comment_content := comment_content +:+ nl +:+ nl in
  let comment_content := comment_content
    +:+ "To open PR with this changes please click this link: " in
  repo ← environ_get_default "GITHUB_REPOSITORY" "napari/napari";
  add_comment_to_pr pr_number comment_content access_token repo.

Definition main : M unit :=
  event_name ← environ_getitem "GITHUB_EVENT_NAME";
  branch_name ← environ_getitem "BRANCH";
  access_token ← environ_get "GHA_TOKEN";
  bot_access_token ← environ_get "GHA_TOKEN_2";
  _setup_git_author;;
  if bool_decide (event_name ∈ ({["schedule"; "workflow_dispatch"]} : gset string))
  then create_pr_with_push branch_name access_token ""
  else if bool_decide (event_name ∈ ({["issue_comment"; "pull_request"]} : gset string))
  then update_pr branch_name access_token bot_access_token
  else raise (ValueError ("Unknown event name: " +:+ event_name)).

End Script.


(** * Reasoning about runs *)

(** The state after some more external interactions and nothing else. *)
Definition emit (es : list Event) (s : State) : State :=
  {| environ := environ s; cwd := cwd s; trace := trace s ++ es |}.

(** [frames P m]: whatever happens, [m] leaves the environment and the
    working directory as they were and only adds events satisfying [P]. *)
Definition frames {A} (P : Event → Prop) (m : M A) : Prop :=
  ∀ s, ∃ new, (m s).2 = emit new s ∧ Forall P new.

(** Python's [needle in hay] on strings. *)
Definition contains (needle hay : string) : Prop :=
  ∃ pre post, hay = pre +:+ needle +:+ post.

(** The POST requests of a history, in order. *)
Definition posts (t : list Event) : list (string * headers * pydict) :=
  omap (λ e, match e with
             | EvPost url hdrs payload => Some (url, hdrs, payload)
             | _ => None
             end) t.

(** All events. *)
Definition any_event : Event → Prop := λ _, True.

(** Spec wording for the listing of names: the first name in backticks,
    then, from left to right, every further name in backticks after a
    comma and a space. *)
Definition backticked_listing (names : list string) : string :=
  match names with
  | [] => ""
  | p :: rest =>
      foldl (λ acc q, acc +:+ ", " +:+ "`" +:+ q +:+ "`") ("`" +:+ p +:+ "`") rest
  end.

(** [starts n h]: [h] begins with [n]. *)
Definition starts (needle hay : string) : Prop :=
  ∃ post, hay = needle +:+ post.

(** ** Kinds of events *)

(** Events that are not POST requests. *)
Definition no_post (e : Event) : Prop :=
  match e with
  | EvPost _ _ _ => False
  | _ => True
  end.

(** The two [git config] calls of [_setup_git_author]. *)
Definition is_author_setup (e : Event) : Prop :=
  ∃ dir,
    e = EvRun dir ["git"; "config"; "--global"; "user.name"; "napari-bot"] ∨
    e = EvRun dir ["git"; "config"; "--global"; "user.email";
                   "napari-bot@users.noreply.github.com"].

(** The create-PR call: POST /repos/{repo}/pulls. *)
Definition is_create_call (repo head base : string) (e : Event) : Prop :=
  ∃ hdrs title body,
    e = EvPost (BASE_URL +:+ "/repos/" +:+ repo +:+ "/pulls") hdrs
               [("title", PStr title); ("body", PStr body);
                ("head", PStr head); ("base", PStr base);
                ("maintainer_can_modify", PBool true)].

(** The update-metadata call: POST /repos/{repo}/pulls/{number}. *)
Definition is_update_call (repo : string) (n : Z) (e : Event) : Prop :=
  ∃ hdrs title body,
    e = EvPost (BASE_URL +:+ "/repos/" +:+ repo +:+ "/pulls/" +:+ pretty n) hdrs
               [("title", PStr title); ("body", PStr body)].

(** A comment whose text carries the run-id placeholder verbatim. *)
Definition is_placeholder_comment (e : Event) : Prop :=
  ∀ url hdrs payload,
    e = EvPost url hdrs payload →
    ∃ body, payload = [("body", PStr body)] ∧
            contains "{os.environ.get('GITHUB_RUN_ID')}" body.

(** The git steps of the scheduled flow on working branch [nb], up to and
    including the push to [origin]. *)
Definition scheduled_git_steps (w : World) (b nb message : string)
    : list Event :=
  [EvRun (REPO_DIR w) ["git"; "checkout"; "-B"; nb];
   EvQuery (REPO_DIR w) false b "3.11" (REPO_DIR w);
   EvRun (REPO_DIR w) ["git"; "add"; "-u"];
   EvRun (REPO_DIR w) ["git"; "commit"; "-m"; message];
   EvRun (REPO_DIR w) ["git"; "push"; "--force"; "--set-upstream"; "origin"; nb]].

(** The open-PR lookup for branch [nb] of [repo]. *)
Definition lookup_call (repo nb : string) : Event :=
  EvGet (BASE_URL +:+ "/repos/" +:+ repo +:+ "/pulls?state=open&head="
         +:+ default "" (head (split "/" repo)) +:+ ":" +:+ nb).

(** The repository the scheduled flow works on. *)
Definition effective_repo (repo : string) (s : State) : string :=
  if nonempty repo then repo
  else default "napari/napari" (environ s !! "GITHUB_REPOSITORY").

(** ** Independence from an environment variable *)

(** Two states that differ at most in the value of the variable [k]. *)
Definition same_but (k : string) (s s' : State) : Prop :=
  cwd s = cwd s' ∧ trace s = trace s'
  ∧ ∀ k', k' ≠ k → environ s !! k' = environ s' !! k'.

(** [blind k m]: the outcome of [m] and what it does never depend on [k]. *)
Definition blind {A} (k : string) (m : M A) : Prop :=
  ∀ s s', same_but k s s' →
          (m s).1 = (m s').1 ∧ same_but k (m s).2 (m s').2.

(** [os.environ[k] = v] *)
Definition environ_set (k v : string) (s : State) : State :=
  {| environ := <[k := v]> (environ s); cwd := cwd s; trace := trace s |}.

(** ** Failed interactions *)

(** Whether the interaction that ends the history [h] failed: a child
    process with a non-zero exit status, a request answered with a client
    or server error. *)
Definition step_failed (w : World) (h : list Event) : bool :=
  match last h with
  | Some (EvRun _ _) => negb (returncode_of w h =? 0)
  | Some (EvGet _) => http_error (get_response w h)
  | Some (EvPost _ _ _) => http_error (post_response w h)
  | _ => false
  end.

(** The exception a run ended with, if any. *)
Definition outcome {A} (r : Result A) : option exn :=
  match r with
  | Ok _ => None
  | Raise e => Some e
  end.

(** Exceptions other than the two that report a failed interaction. *)
Definition quiet (e : exn) : Prop :=
  match e with
  | CalledProcessError _ _ | HTTPError _ => False
  | _ => True
  end.

(** What "fatal on first error" means for the interactions [new] performed
    after history [t0] by a run with outcome [o]: every interaction but the
    last succeeded; after a normal return the last one succeeded too; a
    [CalledProcessError] reports the last interaction, a child process that
    exited with that non-zero status; an [HTTPError] reports the last
    interaction, a request answered with that error status. *)
Definition fail_fast_run (w : World) (t0 : list Event) (o : option exn)
    (new : list Event) : Prop :=
  (∀ i, (S i < length new)%nat →
        step_failed w (t0 ++ take (S i) new) = false)
  ∧ (o = None → new ≠ [] → step_failed w (t0 ++ new) = false)
  ∧ (∀ rc argv, o = Some (CalledProcessError rc argv) →
       ∃ pre dir, new = pre ++ [EvRun dir argv]
                  ∧ returncode_of w (t0 ++ new) = rc ∧ rc ≠ 0)
  ∧ (∀ st, o = Some (HTTPError st) →
       ∃ pre e, new = pre ++ [e]
                ∧ step_failed w (t0 ++ new) = true
                ∧ ((∃ url, e = EvGet url
                           ∧ status_code (get_response w (t0 ++ new)) = st)
                   ∨ (∃ url hdrs payload, e = EvPost url hdrs payload
                           ∧ status_code (post_response w (t0 ++ new)) = st))).

Definition fail_fast (w : World) {A} (m : M A) : Prop :=
  ∀ s, ∃ new, (m s).2 = emit new s
              ∧ fail_fast_run w (trace s) (outcome (m s).1) new.

(** ** Where and on what the flows act *)

(** [frames_in d P m]: started in directory [d], [m] leaves the environment
    and the working directory as they were and only adds events
    satisfying [P]. *)
Definition frames_in {A} (d : string) (P : Event → Prop) (m : M A) : Prop :=
  ∀ s, cwd s = d → ∃ new, (m s).2 = emit new s ∧ Forall P new.

(** An interaction that, if it runs in a directory at all, runs in [d]; a
    dependency query, besides, asks for runtime "3.11" and source
    directory [d]. *)
Definition in_checkout (d : string) (e : Event) : Prop :=
  match e with
  | EvRun dir _ => dir = d
  | EvQuery dir _ _ python_version src_dir =>
      dir = d ∧ python_version = "3.11" ∧ src_dir = d
  | _ => True
  end.

(** The working branch of the scheduled flow for base branch [b]. *)
Definition scheduled_branch (b : string) : string :=
  if String.eqb b "main" then "auto-update-dependencies"
  else "auto-update-dependencies-" +:+ b.

(** What the scheduled flow for base branch [b] and token [tok] may do:
    check out and force-push its own working branch, to [origin]; look up
    open pull requests; POST to the pulls endpoint, to create or to update,
    authorised by [tok]. *)
Definition scheduled_event (b : string) (tok : option string) (e : Event)
    : Prop :=
  match e with
  | EvRun _ argv =>
      (∀ rest, argv = "git" :: "push" :: rest →
               rest = ["--force"; "--set-upstream"; "origin"; scheduled_branch b])
      ∧ (∀ rest, argv = "git" :: "checkout" :: rest →
                 rest = ["-B"; scheduled_branch b])
  | EvQuery _ _ base _ _ => base = b
  | EvGet url =>
      ∃ repo, url = BASE_URL +:+ "/repos/" +:+ repo +:+ "/pulls?state=open&head="
                    +:+ default "" (head (split "/" repo)) +:+ ":"
                    +:+ scheduled_branch b
  | EvPost url hdrs _ =>
      hdrs = [("Authorization", "token " +:+ str_opt tok)]
      ∧ ∃ repo, url = BASE_URL +:+ "/repos/" +:+ repo +:+ "/pulls"
                ∨ ∃ n : Z, url = BASE_URL +:+ "/repos/" +:+ repo +:+ "/pulls/"
                                 +:+ pretty n
  end.

(** What the cross-fork flow for branch [b] may do: check out and force-push
    a branch under "auto-update-dependencies/", to [napari-bot]; POST a
    comment on an issue.  It sends no GET. *)
Definition cross_fork_event (b : string) (e : Event) : Prop :=
  match e with
  | EvRun _ argv =>
      (∀ rest, argv = "git" :: "push" :: rest →
               ∃ target, rest = ["--force"; "--set-upstream"; "napari-bot";
                                 "auto-update-dependencies/" +:+ target
                                 +:+ "/" +:+ b])
      ∧ (∀ rest, argv = "git" :: "checkout" :: rest →
                 ∃ target, rest = ["-B"; "auto-update-dependencies/" +:+ target
                                         +:+ "/" +:+ b])
  | EvQuery _ all_packages base _ _ =>
      base = if all_packages then "origin/" +:+ b else b
  | EvGet _ => False
  | EvPost url _ payload =>
      (∃ repo (n : Z), url = BASE_URL +:+ "/repos/" +:+ repo +:+ "/issues/"
                             +:+ pretty n +:+ "/comments")
      ∧ ∃ body, payload = [("body", PStr body)]
  end.

(** Two runs with the same outcome and the same interactions. *)
Definition same_run {A} (r r' : Result A * State) : Prop :=
  r.1 = r'.1 ∧ trace r.2 = trace r'.2.

(** The event kinds of the scheduled flow and of the cross-fork flow. *)
Definition scheduled_kinds : list string := ["schedule"; "workflow_dispatch"].
Definition cross_fork_kinds : list string := ["issue_comment"; "pull_request"].

(** ** Helpers for statements about strings *)

(** [c in s] for a character [c]. *)
Fixpoint has_char (c : ascii) (s : string) : bool :=
  match s with
  | EmptyString => false
  | String x r => Ascii.eqb x c || has_char c r
  end.

(** * Concrete runs used to exercise the statements *)

(** A runner on which everything succeeds: the direct and the full
    dependency diffs and the open pull requests are given. *)
Definition demo_world (direct all : list string) (pulls : list PullRequest)
    : World :=
  {| REPO_DIR := "/home/runner/work/napari_repo";
     is_dir := λ _, true;
     returncode_of := λ _, 0;
     changed_dependencies := λ h,
       match last h with
       | Some (EvQuery _ false _ _ _) => direct
       | _ => all
       end;
     get_response := λ _, {| status_code := 200; json := pulls |};
     post_response := λ _,
       {| status_code := 201;
          json := [("html_url", PStr "https://github.com/napari/napari/pull/7")] |};
     int_max_str_digits := 4300;
     int_of_unicode := λ _, None |}.

Definition demo_state (env : list (string * string)) : State :=
  {| environ := list_to_map env; cwd := "/home/runner/work"; trace := [] |}.

(** A runner on which [git commit] finds nothing to commit and exits with
    status 1; everything else succeeds. *)
Definition nothing_to_commit_world : World :=
  {| REPO_DIR := "/home/runner/work/napari_repo";
     is_dir := λ _, true;
     returncode_of := λ h,
       match last h with
       | Some (EvRun _ ("git" :: "commit" :: _)) => 1
       | _ => 0
       end;
     changed_dependencies := λ _, [];
     get_response := λ _, {| status_code := 200; json := [] |};
     post_response := λ _, {| status_code := 201; json := [] |};
     int_max_str_digits := 4300;
     int_of_unicode := λ _, None |}.

(** * Basic facts *)

Lemma append_assoc (a b c : string) : (a +:+ b) +:+ c = a +:+ b +:+ c.
Proof.
  induction a as [|ch a IH]; [reflexivity|].
  change (String ch ((a +:+ b) +:+ c) = String ch (a +:+ b +:+ c)).
  by rewrite IH.
Qed.

Lemma emit_nil s : emit [] s = s.
Proof. destruct s; unfold emit; simpl. by rewrite app_nil_r. Qed.

Lemma emit_emit es1 es2 s : emit es2 (emit es1 s) = emit (es1 ++ es2) s.
Proof. unfold emit; simpl. by rewrite app_assoc. Qed.

Lemma log_event_emit e s : log_event e s = emit [e] s.
Proof. reflexivity. Qed.

Lemma set_cwd_emit_set_cwd es d s :
  set_cwd (cwd s) (emit es (set_cwd d s)) = emit es s.
Proof. reflexivity. Qed.

(** ** The model at work *)

Example py_int_plain (w : World) : py_int w "42" = Some 42.
Proof. reflexivity. Qed.

Example py_int_signed_spaced (w : World) : py_int w " -4_2 " = Some (-42).
Proof. reflexivity. Qed.

Example py_int_leading_zeros (w : World) : py_int w "0042" = Some 42.
Proof. reflexivity. Qed.

Example py_int_rejects (w : World) :
  py_int w "" = None ∧ py_int w "4__2" = None ∧ py_int w "42_" = None
  ∧ py_int w "- 42" = None ∧ py_int w "4 2" = None ∧ py_int w "0x2a" = None.
Proof. repeat split. Qed.

(** The file separator (byte 28) is not white space for [int]. *)
Example py_int_file_separator (w : World) :
  py_int w (String "028"%char "42") = None.
Proof. reflexivity. Qed.

(** A literal with a byte outside ASCII is left to the world. *)
Example py_int_beyond_ascii (w : World) :
  py_int w (String "217"%char (String "164"%char ""))
  = int_of_unicode w (String "217"%char (String "164"%char "")).
Proof. reflexivity. Qed.

Example split_repo : split "/" "napari/napari" = ["napari"; "napari"].
Proof. reflexivity. Qed.

Example split_no_separator : split "/" "napari" = ["napari"].
Proof. reflexivity. Qed.

Example join_three : join ", " ["a"; "b"; "c"] = "a, b, c".
Proof. reflexivity. Qed.

(** A scheduled run on [main] with no open pull request. *)
Example scheduled_run_creates :
  let run := main (demo_world [] ["six"] [])
                  (demo_state [("GITHUB_EVENT_NAME", "schedule");
                               ("BRANCH", "main"); ("GHA_TOKEN", "t0k")]) in
  run.1 = Ok ()
  ∧ cwd run.2 = "/home/runner/work"
  ∧ trace run.2 =
      [EvRun "/home/runner/work"
             ["git"; "config"; "--global"; "user.name"; "napari-bot"];
       EvRun "/home/runner/work"
             ["git"; "config"; "--global"; "user.email";
              "napari-bot@users.noreply.github.com"];
       EvRun "/home/runner/work/napari_repo"
             ["git"; "checkout"; "-B"; "auto-update-dependencies"];
       EvQuery "/home/runner/work/napari_repo" false "main" "3.11"
               "/home/runner/work/napari_repo";
       EvRun "/home/runner/work/napari_repo" ["git"; "add"; "-u"];
       EvRun "/home/runner/work/napari_repo"
             ["git"; "commit"; "-m"; "Update indirect dependencies"];
       EvRun "/home/runner/work/napari_repo"
             ["git"; "push"; "--force"; "--set-upstream"; "origin";
              "auto-update-dependencies"];
       EvGet "https://api.github.com/repos/napari/napari/pulls?state=open&head=napari:auto-update-dependencies";
       EvQuery "/home/runner/work/napari_repo" false "main" "3.11"
               "/home/runner/work/napari_repo";
       EvQuery "/home/runner/work/napari_repo" true "main" "3.11"
               "/home/runner/work/napari_repo";
       EvPost "https://api.github.com/repos/napari/napari/pulls"
              [("Authorization", "token t0k")]
              [("title", PStr "Update indirect dependencies");
               ("body", PStr "Updated packages: `six`");
               ("head", PStr "auto-update-dependencies");
               ("base", PStr "main");
               ("maintainer_can_modify", PBool true)]].
Proof. vm_compute. repeat split. Qed.

(** A failing [git commit] aborts the run there, back in the directory the
    run started in. *)
Example failed_commit_aborts :
  let run := main nothing_to_commit_world
                  (demo_state [("GITHUB_EVENT_NAME", "schedule");
                               ("BRANCH", "main")]) in
  run.1 = Raise (CalledProcessError 1
                   ["git"; "commit"; "-m"; "Update indirect dependencies"])
  ∧ cwd run.2 = "/home/runner/work"
  ∧ last (trace run.2) =
      Some (EvRun "/home/runner/work/napari_repo"
                  ["git"; "commit"; "-m"; "Update indirect dependencies"]).
Proof. vm_compute. repeat split. Qed.

(** A PR number that is not a decimal literal aborts the cross-fork flow
    before any git command of that flow. *)
Example bad_pr_number_aborts :
  let run := update_pr (demo_world [] [] []) "feature-x" None None
                       (demo_state [("PR_NUMBER", "forty-two")]) in
  run.1 = Raise (IntLiteralError "forty-two") ∧ trace run.2 = [].
Proof. vm_compute. repeat split. Qed.

Section Frames.

Context (w : World).

Lemma frames_weaken {A} (P Q : Event → Prop) (m : M A) :
  (∀ e, P e → Q e) → frames P m → frames Q m.
Proof.
  intros HPQ Hm s. destruct (Hm s) as (new & E & F).
  exists new. split; [done|]. eapply Forall_impl; eauto.
Qed.

Lemma frames_ret {A} P (a : A) : frames P (mret a : M A).
Proof. intros s. exists []. by rewrite emit_nil. Qed.

Lemma frames_raise {A} P e : frames P (raise e : M A).
Proof. intros s. exists []. by rewrite emit_nil. Qed.

Lemma frames_bind {A B} P (m : M A) (f : A → M B) :
  frames P m → (∀ a, frames P (f a)) → frames P (m ≫= f).
Proof.
  intros Hm Hf s. unfold mbind, M_bind.
  destruct (Hm s) as (n1 & E1 & F1).
  destruct (m s) as [[a|e] s1]; simpl in E1; subst s1.
  - destruct (Hf a (emit n1 s)) as (n2 & E2 & F2).
    exists (n1 ++ n2). rewrite E2, emit_emit. split; [done|].
    by apply Forall_app.
  - by exists n1.
Qed.

Lemma frames_if {A} P (b : bool) (m1 m2 : M A) :
  frames P m1 → frames P m2 → frames P (if b then m1 else m2).
Proof. by destruct b. Qed.

Lemma frames_environ_get P k : frames P (environ_get k).
Proof. intros s. exists []. by rewrite emit_nil. Qed.

Lemma frames_environ_get_default P k d : frames P (environ_get_default k d).
Proof. intros s. exists []. by rewrite emit_nil. Qed.

Lemma frames_environ_getitem P k : frames P (environ_getitem k).
Proof.
  intros s. exists []. rewrite emit_nil. unfold environ_getitem.
  by destruct (environ s !! k).
Qed.

Lemma frames_subprocess_run (P : Event → Prop) argv :
  (∀ dir, P (EvRun dir argv)) → frames P (subprocess_run w argv).
Proof.
  intros HP s. exists [EvRun (cwd s) argv]. unfold subprocess_run.
  split; [|by constructor].
  by destruct (_ =? _).
Qed.

Lemma frames_get_changed_dependencies (P : Event → Prop) a b v d :
  (∀ dir, P (EvQuery dir a b v d)) →
  frames P (get_changed_dependencies w a b v d).
Proof. intros HP s. exists [EvQuery (cwd s) a b v d]. split; [done|by constructor]. Qed.

Lemma frames_requests_get (P : Event → Prop) url :
  P (EvGet url) → frames P (requests_get w url).
Proof. intros HP s. exists [EvGet url]. split; [done|by constructor]. Qed.

Lemma frames_requests_post (P : Event → Prop) url hdrs payload :
  P (EvPost url hdrs payload) → frames P (requests_post w url hdrs payload).
Proof. intros HP s. exists [EvPost url hdrs payload]. split; [done|by constructor]. Qed.

Lemma frames_raise_for_status {A} P (r : Response A) : frames P (raise_for_status r).
Proof.
  unfold raise_for_status. apply frames_if; [apply frames_raise|apply frames_ret].
Qed.


(** When both directories can be entered, [cd] runs its body in [path] and
    hands back the body's outcome. *)
Lemma cd_run {A} path (body : M A) s :
  is_dir w (cwd s) = true → is_dir w path = true →
  cd w path body s =
    ((body (set_cwd path s)).1, set_cwd (cwd s) (body (set_cwd path s)).2).
Proof.
  intros Hcur Hpath.
  unfold cd, getcwd, try_finally, chdir, mbind, M_bind.
  rewrite Hcur, Hpath, Hcur.
  by destruct (body (set_cwd path s)) as [[a|e] s1].
Qed.

Lemma frames_cd {A} P path (body : M A) :
  frames P body → frames P (cd w path body).
Proof.
  intros Hb s.
  unfold cd, getcwd, mbind, M_bind.
  destruct (is_dir w (cwd s)) eqn:Hcur; [|exists []; by rewrite emit_nil].
  unfold try_finally, chdir, mbind, M_bind.
  destruct (is_dir w path) eqn:Hpath.
  - destruct (Hb (set_cwd path s)) as (new & E & F).
    exists new. split; [|done].
    destruct (body (set_cwd path s)) as [[a|e] s1]; simpl in E; subst s1;
      simpl; by rewrite Hcur.
  - exists []. rewrite emit_nil. simpl. rewrite Hcur. by destruct s.
Qed.

End Frames.

(** ** Runs in which the checkout directory exists *)

Section Runs.

Context (w : World).
Hypothesis Hrepo : is_dir w (REPO_DIR w) = true.

Lemma cd_repo_run {A} (body : M A) s :
  is_dir w (cwd s) = true →
  cd w (REPO_DIR w) body s =
    ((body (set_cwd (REPO_DIR w) s)).1,
     set_cwd (cwd s) (body (set_cwd (REPO_DIR w) s)).2).
Proof. intros Hcur. by apply cd_run. Qed.

Lemma commit_message_run b s :
  is_dir w (cwd s) = true →
  let e := EvQuery (REPO_DIR w) false b "3.11" (REPO_DIR w) in
  let changed_direct := changed_dependencies w (trace s ++ [e]) in
  commit_message w b s =
    (Ok match changed_direct with
        | [] => "Update indirect dependencies"
        | _ => "Update " +:+ join ", " (backtick <$> changed_direct)
        end,
     emit [e] s).
Proof.
  intros Hcur e changed_direct.
  unfold commit_message, mbind, M_bind.
  rewrite cd_repo_run by done.
  unfold get_changed_dependencies; simpl.
  fold e. fold changed_direct. by destruct changed_direct.
Qed.

Lemma long_description_run b s :
  is_dir w (cwd s) = true →
  let e := EvQuery (REPO_DIR w) true b "3.11" (REPO_DIR w) in
  let all_changed := changed_dependencies w (trace s ++ [e]) in
  long_description w b s =
    (Ok ("Updated packages: " +:+ join ", " (backtick <$> all_changed)),
     emit [e] s).
Proof.
  intros Hcur e all_changed.
  unfold long_description, mbind, M_bind.
  rewrite cd_repo_run by done.
  reflexivity.
Qed.

(** ** Runs in which, besides, every child process exits with status 0 *)

Hypothesis Hgit : ∀ h, returncode_of w h = 0.

Lemma subprocess_run_ok argv s :
  subprocess_run w argv s = (Ok (), emit [EvRun (cwd s) argv] s).
Proof. unfold subprocess_run. by rewrite Hgit. Qed.

Lemma _setup_git_author_ok s :
  _setup_git_author w s =
    (Ok (),
     emit [EvRun (cwd s) ["git"; "config"; "--global"; "user.name"; "napari-bot"];
           EvRun (cwd s) ["git"; "config"; "--global"; "user.email";
                          "napari-bot@users.noreply.github.com"]] s).
Proof.
  unfold _setup_git_author, mbind, M_bind.
  by rewrite !subprocess_run_ok, emit_emit.
Qed.

Lemma create_commit_ok message branch_name s :
  is_dir w (cwd s) = true →
  create_commit w message branch_name s =
    (Ok (),
     emit ((if nonempty branch_name
            then [EvRun (REPO_DIR w) ["git"; "checkout"; "-B"; branch_name]]
            else [])
           ++ [EvRun (REPO_DIR w) ["git"; "add"; "-u"];
               EvRun (REPO_DIR w) ["git"; "commit"; "-m"; message]]) s).
Proof.
  intros Hcur. unfold create_commit.
  rewrite cd_repo_run by done.
  unfold mbind, M_bind.
  destruct (nonempty branch_name).
  - rewrite !subprocess_run_ok. simpl.
    unfold emit; simpl. by rewrite <- !app_assoc.
  - unfold mret, M_ret. rewrite !subprocess_run_ok. simpl.
    unfold emit; simpl. by rewrite <- !app_assoc.
Qed.

Lemma push_ok branch_name update s :
  is_dir w (cwd s) = true →
  push w branch_name update s =
    (Ok (),
     emit [EvRun (REPO_DIR w)
             ["git"; "push"; "--force"; "--set-upstream";
              if update then "napari-bot" else "origin"; branch_name]] s).
Proof.
  intros Hcur. unfold push.
  rewrite cd_repo_run by done.
  destruct update; by rewrite subprocess_run_ok.
Qed.

End Runs.

(** ** Every function of the script is framed *)

Ltac frames_go side :=
  repeat first
    [ apply frames_ret
    | apply frames_raise
    | apply frames_environ_get
    | apply frames_environ_get_default
    | apply frames_environ_getitem
    | apply frames_raise_for_status
    | apply frames_cd
    | apply frames_subprocess_run; intros ?; side
    | apply frames_get_changed_dependencies; intros ?; side
    | apply frames_requests_get; side
    | apply frames_requests_post; side
    | apply frames_bind; [|intros ?]
    | match goal with
      | |- frames _ (if ?b then _ else _) => destruct b
      | |- frames _ (match ?x with _ => _ end) => destruct x
      end
    | progress cbv zeta ].

Section AllFramed.

Context (w : World).




Lemma frames_commit_message b : frames any_event (commit_message w b).
Proof. unfold commit_message. frames_go ltac:(exact I). Qed.

Lemma frames_long_description b : frames any_event (long_description w b).
Proof. unfold long_description. frames_go ltac:(exact I). Qed.


Lemma frames_update_own_pr n t b r : frames any_event (update_own_pr w n t b r).
Proof.
  unfold update_own_pr. cbv zeta.
  apply frames_bind; [apply frames_commit_message|intros title].
  apply frames_bind; [apply frames_long_description|intros body].
  frames_go ltac:(exact I).
Qed.

Lemma frames_create_pr b n t r u : frames any_event (create_pr w b n t r u).
Proof.
  unfold create_pr. cbv zeta.
  apply frames_bind; [apply frames_commit_message|intros title].
  apply frames_bind; [apply frames_long_description|intros body].
  frames_go ltac:(exact I).
Qed.







End AllFramed.

Lemma append_nil_r (a : string) : a +:+ "" = a.
Proof.
  induction a as [|ch a IH]; [reflexivity|].
  change (String ch (a +:+ "") = String ch a). by rewrite IH.
Qed.

Lemma foldl_listing (rest : list string) (acc : string) :
  foldl (λ acc q, acc +:+ ", " +:+ "`" +:+ q +:+ "`") acc rest =
  acc +:+ match rest with
          | [] => ""
          | _ => ", " +:+ join ", " (backtick <$> rest)
          end.
Proof.
  revert acc. induction rest as [|q rest IH]; intros acc.
  - by rewrite append_nil_r.
  - cbn [foldl]. rewrite IH. destruct rest as [|q' rest].
    + rewrite append_nil_r. reflexivity.
    + rewrite append_assoc. reflexivity.
Qed.

(** [", ".join] of the backticked names is the listing the spec describes. *)
Lemma join_backticked (names : list string) :
  join ", " (backtick <$> names) = backticked_listing names.
Proof.
  destruct names as [|p rest]; [reflexivity|].
  unfold backticked_listing. rewrite foldl_listing.
  destruct rest as [|q rest]; [by rewrite append_nil_r|reflexivity].
Qed.

Example backticked_listing_two :
  backticked_listing ["numpy"; "scipy"] = "`numpy`, `scipy`".
Proof. reflexivity. Qed.

(** ** The HTTP helpers and the two flows on successful runs *)

Section Flows.

Context (w : World).
Hypothesis Hrepo : is_dir w (REPO_DIR w) = true.

Lemma add_comment_to_pr_run n message tok repo s :
  let e := EvPost (BASE_URL +:+ "/repos/" +:+ repo +:+ "/issues/"
                   +:+ pretty n +:+ "/comments")
                  [("Authorization",
                    "token " +:+ str_opt (environ s !! "GITHUB_TOKEN"))]
                  [("body", PStr message)] in
  add_comment_to_pr w n message tok repo s =
    raise_for_status (post_response w (trace s ++ [e])) (emit [e] s).
Proof. reflexivity. Qed.

Lemma raise_for_status_state {A} (r : Response A) s :
  (raise_for_status r s).2 = s.
Proof. unfold raise_for_status. by destruct (http_error r). Qed.

Lemma list_pr_for_branch_run branch_name tok repo s :
  let e := EvGet (BASE_URL +:+ "/repos/" +:+ repo +:+ "/pulls?state=open&head="
                  +:+ default "" (head (split "/" repo)) +:+ ":" +:+ branch_name) in
  http_error (get_response w (trace s ++ [e])) = false →
  list_pr_for_branch w branch_name tok repo s =
    (Ok ((λ pr, Z.pos (number pr)) <$> head (json (get_response w (trace s ++ [e])))),
     emit [e] s).
Proof.
  intros e Hok.
  unfold list_pr_for_branch, mbind, M_bind, requests_get, raise_for_status.
  cbv zeta. rewrite log_event_emit. fold e. cbn [trace emit]. rewrite Hok.
  unfold mret, M_ret. by destruct (json _).
Qed.

Lemma update_own_pr_run n tok base repo s :
  is_dir w (cwd s) = true →
  ∃ title body r,
    update_own_pr w n tok base repo s =
      (r, emit [EvQuery (REPO_DIR w) false base "3.11" (REPO_DIR w);
                EvQuery (REPO_DIR w) true base "3.11" (REPO_DIR w);
                EvPost (BASE_URL +:+ "/repos/" +:+ repo +:+ "/pulls/" +:+ pretty n)
                       [("Authorization", "token " +:+ str_opt tok)]
                       [("title", PStr title); ("body", PStr body)]] s).
Proof.
  intros Hcur.
  unfold update_own_pr, mbind, M_bind. cbv zeta.
  rewrite commit_message_run by done.
  rewrite long_description_run by done.
  unfold requests_post. rewrite log_event_emit, !emit_emit.
  eexists _, _, _. apply injective_projections; [reflexivity|].
  cbn [snd]. apply raise_for_status_state.
Qed.

Lemma create_pr_run base new_branch tok repo s :
  is_dir w (cwd s) = true →
  ∃ title body r,
    create_pr w base new_branch tok repo "" s =
      (r, emit [EvQuery (REPO_DIR w) false base "3.11" (REPO_DIR w);
                EvQuery (REPO_DIR w) true base "3.11" (REPO_DIR w);
                EvPost (BASE_URL +:+ "/repos/" +:+ repo +:+ "/pulls")
                       [("Authorization", "token " +:+ str_opt tok)]
                       [("title", PStr title); ("body", PStr body);
                        ("head", PStr new_branch); ("base", PStr base);
                        ("maintainer_can_modify", PBool true)]] s).
Proof.
  intros Hcur.
  unfold create_pr, mbind, M_bind. cbv zeta.
  rewrite commit_message_run by done.
  rewrite long_description_run by done.
  unfold requests_post. rewrite log_event_emit, !emit_emit.
  cbn [nonempty String.eqb negb].
  eexists _, _, _. apply injective_projections; [reflexivity|].
  cbn [snd]. unfold raise_for_status.
  destruct (http_error _); [reflexivity|].
  unfold mret, M_ret. by destruct (dict_get _ _).
Qed.

Hypothesis Hgit : ∀ h, returncode_of w h = 0.

(** Up to the push, the scheduled flow is a fixed sequence of git calls on
    the derived branch; what follows starts with the open-PR lookup. *)
Lemma create_pr_with_push_run b tok repo s :
  is_dir w (cwd s) = true →
  let new_branch_name :=
    if String.eqb b "main" then "auto-update-dependencies"
    else "auto-update-dependencies-" +:+ b in
  let repo' := if nonempty repo then repo
               else default "napari/napari" (environ s !! "GITHUB_REPOSITORY") in
  ∃ message,
    create_pr_with_push w b tok repo s =
      (pr_number ← list_pr_for_branch w new_branch_name tok repo';
       if truthy pr_number
       then update_own_pr w (default 0 pr_number) tok b repo'
       else create_pr w b new_branch_name tok repo' "")
        (emit [EvRun (REPO_DIR w) ["git"; "checkout"; "-B"; new_branch_name];
               EvQuery (REPO_DIR w) false b "3.11" (REPO_DIR w);
               EvRun (REPO_DIR w) ["git"; "add"; "-u"];
               EvRun (REPO_DIR w) ["git"; "commit"; "-m"; message];
               EvRun (REPO_DIR w) ["git"; "push"; "--force"; "--set-upstream";
                                   "origin"; new_branch_name]] s).
Proof.
  intros Hcur nb repo'.
  unfold create_pr_with_push. cbv zeta. fold nb.
  unfold mbind at 1, M_bind at 1.
  assert (Hr : (if nonempty repo then mret repo
                else environ_get_default "GITHUB_REPOSITORY" "napari/napari") s
               = (Ok repo', s)).
  { unfold repo'. by destruct (nonempty repo). }
  rewrite Hr.
  unfold mbind at 1, M_bind at 1.
  rewrite cd_repo_run by done. rewrite subprocess_run_ok by done.
  cbn [fst snd set_cwd cwd emit environ trace].
  unfold mbind at 1, M_bind at 1.
  rewrite commit_message_run by done. cbv zeta.
  unfold mbind at 1, M_bind at 1.
  rewrite create_commit_ok by done.
  unfold mbind at 1, M_bind at 1.
  rewrite push_ok by done.
  rewrite !set_cwd_emit_set_cwd, !emit_emit.
  cbn [nonempty String.eqb negb app trace emit]. rewrite <- app_assoc.
  eexists. reflexivity.
Qed.

End Flows.

(** ** Substrings *)

Lemma starts_here n post : starts n (n +:+ post).
Proof. by exists post. Qed.

Lemma starts_cong p n h : starts n h → starts (p +:+ n) (p +:+ h).
Proof. intros [post ->]. exists post. by rewrite append_assoc. Qed.

Lemma contains_of_starts n h : starts n h → contains n h.
Proof. intros [post ->]. by exists "", post. Qed.

Lemma contains_app_l n p h : contains n h → contains n (p +:+ h).
Proof.
  intros (pre & post & ->). exists (p +:+ pre), post. by rewrite append_assoc.
Qed.

Lemma contains_app_r n h q : contains n h → contains n (h +:+ q).
Proof.
  intros (pre & post & ->). exists pre, (post +:+ q).
  by rewrite !append_assoc.
Qed.

(** ** The cross-fork flow on a successful run *)

Section CrossFork.

Context (w : World).
Hypothesis Hrepo : is_dir w (REPO_DIR w) = true.
Hypothesis Hgit : ∀ h, returncode_of w h = 0.

Lemma get_pr_number_run s lit n :
  environ s !! "PR_NUMBER" = Some lit → py_int w lit = Some n →
  get_pr_number w s = (Ok n, s).
Proof.
  intros Hlit Hn. unfold get_pr_number, mbind, M_bind, environ_get.
  by rewrite Hlit, Hn.
Qed.

Lemma update_pr_run b t1 t2 s lit n :
  is_dir w (cwd s) = true →
  environ s !! "PR_NUMBER" = Some lit → py_int w lit = Some n →
  let target_repo := str_opt (environ s !! "FULL_NAME") in
  let new_branch_name :=
    "auto-update-dependencies/" +:+ target_repo +:+ "/" +:+ b in
  ∃ message body r,
    update_pr w b t1 t2 s =
      (r, emit [EvQuery (REPO_DIR w) false b "3.11" (REPO_DIR w);
                EvRun (REPO_DIR w) ["git"; "checkout"; "-B"; new_branch_name];
                EvRun (REPO_DIR w) ["git"; "add"; "-u"];
                EvRun (REPO_DIR w) ["git"; "commit"; "-m"; message];
                EvQuery (REPO_DIR w) true ("origin/" +:+ b) "3.11" (REPO_DIR w);
                EvRun (REPO_DIR w) ["git"; "push"; "--force"; "--set-upstream";
                                    "napari-bot"; new_branch_name];
                EvPost (BASE_URL +:+ "/repos/"
                        +:+ default "napari/napari" (environ s !! "GITHUB_REPOSITORY")
                        +:+ "/issues/" +:+ pretty n +:+ "/comments")
                       [("Authorization",
                         "token " +:+ str_opt (environ s !! "GITHUB_TOKEN"))]
                       [("body", PStr body)]] s)
    ∧ contains ("https://github.com/" +:+ target_repo +:+ "/compare/" +:+ b
                +:+ "...napari-bot:" +:+ new_branch_name) body
    ∧ contains "{os.environ.get('GITHUB_RUN_ID')}" body.
Proof.
  intros Hcur Hlit Hn target_repo nb.
  unfold update_pr.
  unfold mbind at 1, M_bind at 1. rewrite (get_pr_number_run s lit n) by done.
  unfold mbind at 1, M_bind at 1. unfold environ_get at 1.
  fold target_repo. cbv zeta. fold nb.
  unfold mbind at 1, M_bind at 1. rewrite commit_message_run by done. cbv zeta.
  unfold mbind at 1, M_bind at 1. rewrite create_commit_ok by done.
  replace (nonempty nb) with true by reflexivity.
  unfold mbind at 1, M_bind at 1. rewrite long_description_run by done. cbv zeta.
  unfold mbind at 1, M_bind at 1. rewrite push_ok by done.
  unfold mbind at 1, M_bind at 1. unfold environ_get_default at 1.
  rewrite add_comment_to_pr_run. cbv zeta.
  eexists _, _, _. split; [|split].
  - apply injective_projections; [reflexivity|].
    cbn [snd]. rewrite raise_for_status_state.
    unfold emit. cbn. rewrite <- !app_assoc. reflexivity.
  - do 7 apply contains_app_r. apply contains_app_l.
    apply contains_of_starts. do 5 apply starts_cong. apply starts_here.
  - do 2 apply contains_app_r. apply contains_app_l.
    by exists "from the run https://github.com/PartSeg/napari/actions/runs/", "".
Qed.

End CrossFork.

Section NoPost.

Context (w : World).

Lemma no_post_commit_message b : frames no_post (commit_message w b).
Proof. unfold commit_message. frames_go ltac:(exact I). Qed.

Lemma no_post_long_description b : frames no_post (long_description w b).
Proof. unfold long_description. frames_go ltac:(exact I). Qed.

Lemma no_post_create_commit m b : frames no_post (create_commit w m b).
Proof. unfold create_commit. frames_go ltac:(exact I). Qed.

Lemma no_post_push b u : frames no_post (push w b u).
Proof. unfold push. frames_go ltac:(exact I). Qed.

Lemma no_post_get_pr_number : frames no_post (get_pr_number w).
Proof. unfold get_pr_number. frames_go ltac:(exact I). Qed.

Lemma author_setup_only : frames is_author_setup (_setup_git_author w).
Proof.
  unfold _setup_git_author.
  frames_go ltac:(eexists; first [by left | by right]).
Qed.

Lemma posts_no_post (t : list Event) : Forall no_post t → posts t = [].
Proof.
  induction 1 as [|e t He _ IH]; [reflexivity|].
  unfold posts in *. cbn [omap list_omap]. destruct e; try done.
Qed.

End NoPost.

(** ** Functions that never read a given environment variable *)

Section Blind.

Context (w : World) (k : string).

Lemma same_but_refl s : same_but k s s.
Proof. by repeat split. Qed.

Lemma same_but_environ_set v s : same_but k s (environ_set k v s).
Proof.
  repeat split. intros k' Hk'. cbn. by rewrite lookup_insert_ne.
Qed.

Lemma blind_ret {A} (a : A) : blind k (mret a : M A).
Proof. by intros s s' Hs. Qed.

Lemma blind_raise {A} e : blind k (raise e : M A).
Proof. by intros s s' Hs. Qed.

Lemma blind_bind {A B} (m : M A) (f : A → M B) :
  blind k m → (∀ a, blind k (f a)) → blind k (m ≫= f).
Proof.
  intros Hm Hf s s' Hs. unfold mbind, M_bind.
  destruct (Hm s s' Hs) as [E1 E2].
  destruct (m s) as [[a|e] s1], (m s') as [[a'|e'] s1'];
    cbn [fst snd] in *; try discriminate.
  - injection E1 as ->. by apply Hf.
  - injection E1 as ->. done.
Qed.

Lemma blind_if {A} (b : bool) (m1 m2 : M A) :
  blind k m1 → blind k m2 → blind k (if b then m1 else m2).
Proof. by destruct b. Qed.

Lemma blind_environ_get k' : k' ≠ k → blind k (environ_get k').
Proof.
  intros Hk s s' Hs. unfold environ_get. cbn [fst snd].
  destruct Hs as (Hc & Ht & He). rewrite (He k' Hk). by repeat split.
Qed.

Lemma blind_environ_get_default k' d :
  k' ≠ k → blind k (environ_get_default k' d).
Proof.
  intros Hk s s' Hs. unfold environ_get_default. cbn [fst snd].
  destruct Hs as (Hc & Ht & He). rewrite (He k' Hk). by repeat split.
Qed.

Lemma blind_getcwd : blind k (getcwd w).
Proof.
  intros s s' Hs. unfold getcwd.
  destruct Hs as (Hc & Ht & He). rewrite Hc.
  destruct (is_dir w (cwd s')); cbn [fst snd]; by repeat split.
Qed.

Lemma blind_chdir path : blind k (chdir w path).
Proof.
  intros s s' Hs. unfold chdir.
  destruct Hs as (Hc & Ht & He).
  destruct (is_dir w path); cbn [fst snd]; by repeat split.
Qed.

Lemma blind_try_finally {A} (c : M A) (f : M unit) :
  blind k c → blind k f → blind k (try_finally c f).
Proof.
  intros Hc Hf s s' Hs. unfold try_finally.
  destruct (Hc s s' Hs) as [E1 E2].
  destruct (c s) as [r s1], (c s') as [r' s1']; cbn [fst snd] in *. subst r'.
  destruct (Hf s1 s1' E2) as [E3 E4].
  destruct (f s1) as [[[]|e] s2], (f s1') as [[[]|e'] s2'];
    cbn [fst snd] in *; try discriminate; [done|].
  by injection E3 as ->.
Qed.

Lemma blind_cd {A} path (body : M A) : blind k body → blind k (cd w path body).
Proof.
  intros Hb. unfold cd.
  apply blind_bind; [apply blind_getcwd|intros current_dir].
  apply blind_try_finally; [|apply blind_chdir].
  apply blind_bind; [apply blind_chdir|intros _; done].
Qed.

Lemma blind_subprocess_run argv : blind k (subprocess_run w argv).
Proof.
  intros s s' Hs. unfold subprocess_run, log_event. cbn [trace].
  destruct Hs as (Hc & Ht & He). rewrite Hc, Ht.
  destruct (_ =? _); cbn [fst snd]; by repeat split.
Qed.

Lemma blind_get_changed_dependencies a b v d :
  blind k (get_changed_dependencies w a b v d).
Proof.
  intros s s' Hs. unfold get_changed_dependencies, log_event. cbn [trace fst snd].
  destruct Hs as (Hc & Ht & He). rewrite Hc, Ht. by repeat split.
Qed.

Lemma blind_requests_post url hdrs payload :
  blind k (requests_post w url hdrs payload).
Proof.
  intros s s' Hs. unfold requests_post, log_event. cbn [trace fst snd].
  destruct Hs as (Hc & Ht & He). rewrite Ht. by repeat split.
Qed.

Lemma blind_requests_get url : blind k (requests_get w url).
Proof.
  intros s s' Hs. unfold requests_get, log_event. cbn [trace fst snd].
  destruct Hs as (Hc & Ht & He). rewrite Ht. by repeat split.
Qed.

Lemma blind_raise_for_status {A} (r : Response A) : blind k (raise_for_status r).
Proof.
  unfold raise_for_status. apply blind_if; [apply blind_raise|apply blind_ret].
Qed.

End Blind.

Ltac blind_go :=
  repeat first
    [ apply blind_ret
    | apply blind_raise
    | apply blind_raise_for_status
    | apply blind_environ_get; discriminate
    | apply blind_environ_get_default; discriminate
    | apply blind_cd
    | apply blind_subprocess_run
    | apply blind_get_changed_dependencies
    | apply blind_requests_post
    | apply blind_bind; [|intros ?]
    | match goal with
      | |- blind _ (if ?b then _ else _) => destruct b
      | |- blind _ (match ?x with _ => _ end) => destruct x
      end
    | progress cbv zeta ].

(** The cross-fork flow never reads [GITHUB_RUN_ID]. *)
Lemma update_pr_blind_to_run_id (w : World) b t1 t2 :
  blind "GITHUB_RUN_ID" (update_pr w b t1 t2).
Proof.
  unfold update_pr, get_pr_number, commit_message, create_commit,
    long_description, push, add_comment_to_pr.
  blind_go.
Qed.

(** ** The scheduled flow on a successful run *)

Section Scheduled.

Context (w : World).
Hypothesis Hrepo : is_dir w (REPO_DIR w) = true.
Hypothesis Hgit : ∀ h, returncode_of w h = 0.

Lemma bind_emits {A B} (m : M A) (f : A → M B) s new :
  (m s).2 = emit new s →
  (∀ a, frames any_event (f a)) →
  ∃ rest, ((m ≫= f) s).2 = emit (new ++ rest) s.
Proof.
  intros Hm Hf. unfold mbind, M_bind.
  destruct (m s) as [[a|e] s2]; cbn [snd] in Hm; subst s2.
  - destruct (Hf a (emit new s)) as (rest & E & _).
    exists rest. by rewrite E, emit_emit.
  - exists []. by rewrite app_nil_r.
Qed.

(** The lookup always sends its GET first. *)
Lemma list_pr_for_branch_emits nb tok repo s :
  ∃ rest,
    (list_pr_for_branch w nb tok repo s).2 = emit (lookup_call repo nb :: rest) s.
Proof.
  unfold list_pr_for_branch. cbv zeta.
  apply (bind_emits (requests_get w _) _ s [lookup_call repo nb]);
    [reflexivity|].
  intros response.
  apply frames_bind; [apply frames_raise_for_status|intros _].
  destruct (json response); apply frames_ret.
Qed.

(** Whatever the platform answers, the scheduled flow performs its git
    steps on the derived branch and then looks up the open PRs for it. *)
Lemma create_pr_with_push_steps b tok repo s :
  is_dir w (cwd s) = true →
  let nb := if String.eqb b "main" then "auto-update-dependencies"
            else "auto-update-dependencies-" +:+ b in
  ∃ message rest r,
    create_pr_with_push w b tok repo s =
      (r, emit (scheduled_git_steps w b nb message
                ++ lookup_call (effective_repo repo s) nb :: rest) s).
Proof.
  intros Hcur nb.
  destruct (create_pr_with_push_run w Hrepo Hgit b tok repo s Hcur)
    as (message & E).
  cbv zeta in E. fold nb in E. fold (effective_repo repo s) in E.
  rewrite E. clear E.
  set (s1 := emit _ s).
  destruct (list_pr_for_branch_emits nb tok (effective_repo repo s) s1)
    as (rest1 & E1).
  destruct (bind_emits _
              (λ pr_number : option Z,
                 if truthy pr_number
                 then update_own_pr w (default 0 pr_number) tok b
                        (effective_repo repo s)
                 else create_pr w b nb tok (effective_repo repo s) "")
              s1 _ E1) as (rest & E2).
  { intros p. apply frames_if;
      [apply frames_update_own_pr|apply frames_create_pr]. }
  exists message, (rest1 ++ rest). eexists.
  apply injective_projections; [reflexivity|].
  cbn [snd]. rewrite E2. unfold s1. rewrite emit_emit.
  f_equal.
Qed.

End Scheduled.

(** ** Fatal on first error *)

Section FailFast.

Context (w : World).

Lemma fail_fast_run_nil t0 o :
  (∀ e, o = Some e → quiet e) → fail_fast_run w t0 o [].
Proof.
  intros Hq. repeat split.
  - intros i Hi. cbn in Hi. lia.
  - intros _ Hne. done.
  - intros rc argv ->. destruct (Hq _ eq_refl).
  - intros st ->. destruct (Hq _ eq_refl).
Qed.

Lemma fail_fast_run_app t0 o new1 new2 :
  fail_fast_run w t0 None new1 →
  fail_fast_run w (t0 ++ new1) o new2 →
  fail_fast_run w t0 o (new1 ++ new2).
Proof.
  intros (A1 & B1 & _ & _) (A2 & B2 & C2 & D2). repeat split.
  - intros i Hi. rewrite length_app in Hi.
    destruct (decide (S i < length new1)%nat) as [Hlt|Hge].
    + rewrite take_app_le by lia. by apply A1.
    + destruct (decide (S i = length new1)) as [Heq|Hne].
      * rewrite take_app_le by lia. rewrite take_ge by lia.
        apply B1; [done|]. intros ->. cbn in Heq. lia.
      * rewrite take_app_ge by lia. rewrite app_assoc.
        replace (S i - length new1)%nat with (S (i - length new1)) by lia.
        apply A2. lia.
  - intros Ho Hne. destruct new2 as [|e new2].
    + rewrite app_nil_r in *. by apply B1.
    + rewrite app_assoc. by apply B2.
  - intros rc argv Ho. destruct (C2 rc argv Ho) as (pre & dir & -> & Hrc & Hnz).
    exists (new1 ++ pre), dir. rewrite <- !app_assoc in *. done.
  - intros st Ho. destruct (D2 st Ho) as (pre & e & -> & Hf & He).
    exists (new1 ++ pre), e. rewrite <- !app_assoc in *. done.
Qed.

Lemma step_failed_snoc t0 e :
  step_failed w (t0 ++ [e]) =
    match e with
    | EvRun _ _ => negb (returncode_of w (t0 ++ [e]) =? 0)
    | EvGet _ => http_error (get_response w (t0 ++ [e]))
    | EvPost _ _ _ => http_error (post_response w (t0 ++ [e]))
    | EvQuery _ _ _ _ _ => false
    end.
Proof. unfold step_failed. rewrite last_snoc. by destruct e. Qed.

(** One interaction that succeeded. *)
Lemma fail_fast_run_one_ok t0 e :
  step_failed w (t0 ++ [e]) = false → fail_fast_run w t0 None [e].
Proof.
  intros Hok. repeat split; try done.
  intros i Hi. cbn in Hi. lia.
Qed.

Lemma fail_fast_ret {A} (a : A) : fail_fast w (mret a : M A).
Proof.
  intros s. exists []. rewrite emit_nil. split; [done|].
  apply fail_fast_run_nil. by intros e.
Qed.

Lemma fail_fast_raise {A} e : quiet e → fail_fast w (raise e : M A).
Proof.
  intros Hq s. exists []. rewrite emit_nil. split; [done|].
  apply fail_fast_run_nil. by intros e' [= <-].
Qed.

Lemma fail_fast_bind {A B} (m : M A) (f : A → M B) :
  fail_fast w m → (∀ a, fail_fast w (f a)) → fail_fast w (m ≫= f).
Proof.
  intros Hm Hf s. unfold mbind, M_bind.
  destruct (Hm s) as (n1 & E1 & F1).
  destruct (m s) as [[a|e] s1]; cbn [fst snd outcome] in *; subst s1.
  - destruct (Hf a (emit n1 s)) as (n2 & E2 & F2).
    exists (n1 ++ n2). rewrite E2, emit_emit. split; [done|].
    by apply fail_fast_run_app.
  - by exists n1.
Qed.

Lemma fail_fast_if {A} (b : bool) (m1 m2 : M A) :
  fail_fast w m1 → fail_fast w m2 → fail_fast w (if b then m1 else m2).
Proof. by destruct b. Qed.

Lemma fail_fast_environ_get k : fail_fast w (environ_get k).
Proof.
  intros s. exists []. rewrite emit_nil. split; [done|].
  apply fail_fast_run_nil. by intros e.
Qed.

Lemma fail_fast_environ_get_default k d : fail_fast w (environ_get_default k d).
Proof.
  intros s. exists []. rewrite emit_nil. split; [done|].
  apply fail_fast_run_nil. by intros e.
Qed.

Lemma fail_fast_environ_getitem k : fail_fast w (environ_getitem k).
Proof.
  intros s. exists []. rewrite emit_nil. unfold environ_getitem.
  destruct (environ s !! k); (split; [done|]);
    apply fail_fast_run_nil; cbn; [done|by intros e [= <-]].
Qed.

Lemma fail_fast_subprocess_run argv : fail_fast w (subprocess_run w argv).
Proof.
  intros s. exists [EvRun (cwd s) argv]. unfold subprocess_run.
  rewrite log_event_emit. cbn [trace emit].
  destruct (returncode_of w _ =? 0) eqn:Hrc; (split; [done|]).
  - apply fail_fast_run_one_ok. rewrite step_failed_snoc. by rewrite Hrc.
  - repeat split; try done.
    + intros i Hi. cbn in Hi. lia.
    + intros rc argv' [= <- <-]. exists [], (cwd s).
      split; [done|]. split; [done|]. by apply Z.eqb_neq.
Qed.

Lemma fail_fast_get_changed_dependencies a b v d :
  fail_fast w (get_changed_dependencies w a b v d).
Proof.
  intros s. exists [EvQuery (cwd s) a b v d]. split; [done|].
  apply fail_fast_run_one_ok. by rewrite step_failed_snoc.
Qed.

(** A GET followed at once by [raise_for_status]. *)
Lemma fail_fast_get_checked {B} url (k : Response (list PullRequest) → M B) :
  (∀ r, fail_fast w (k r)) →
  fail_fast w (requests_get w url ≫= λ r, raise_for_status r ≫= λ _, k r).
Proof.
  intros Hk s. unfold mbind, M_bind, requests_get, raise_for_status.
  rewrite log_event_emit. cbn [trace emit].
  set (r := get_response w (trace s ++ [EvGet url])).
  destruct (http_error r) eqn:Herr.
  - exists [EvGet url]. split; [done|]. repeat split; try done.
    + intros i Hi. cbn in Hi. lia.
    + intros st [= <-]. exists [], (EvGet url). split; [done|].
      split; [by rewrite step_failed_snoc|]. left. by exists url.
  - destruct (Hk r (emit [EvGet url] s)) as (n2 & E2 & F2).
    exists ([EvGet url] ++ n2). cbn [mret M_ret].
    rewrite E2, emit_emit. split; [done|].
    apply fail_fast_run_app; [|done].
    apply fail_fast_run_one_ok. by rewrite step_failed_snoc.
Qed.

(** A POST followed at once by [raise_for_status]. *)
Lemma fail_fast_post_checked {B} url hdrs payload (k : Response pydict → M B) :
  (∀ r, fail_fast w (k r)) →
  fail_fast w (requests_post w url hdrs payload
               ≫= λ r, raise_for_status r ≫= λ _, k r).
Proof.
  intros Hk s. unfold mbind, M_bind, requests_post, raise_for_status.
  rewrite log_event_emit. cbn [trace emit].
  set (e := EvPost url hdrs payload).
  set (r := post_response w (trace s ++ [e])).
  destruct (http_error r) eqn:Herr.
  - exists [e]. split; [done|]. repeat split; try done.
    + intros i Hi. cbn in Hi. lia.
    + intros st [= <-]. exists [], e. split; [done|].
      split; [by rewrite step_failed_snoc|]. right. by exists url, hdrs, payload.
  - destruct (Hk r (emit [e] s)) as (n2 & E2 & F2).
    exists ([e] ++ n2). cbn [mret M_ret].
    rewrite E2, emit_emit. split; [done|].
    apply fail_fast_run_app; [|done].
    apply fail_fast_run_one_ok. by rewrite step_failed_snoc.
Qed.

(** A POST whose [raise_for_status] ends the function. *)
Lemma fail_fast_post_last url hdrs payload :
  fail_fast w (requests_post w url hdrs payload ≫= λ r, raise_for_status r).
Proof.
  intros s.
  destruct (fail_fast_post_checked url hdrs payload (λ _, mret ())
              (λ _, fail_fast_ret ()) s) as (new & E & F).
  exists new. revert E F.
  unfold mbind, M_bind, requests_post, raise_for_status.
  by destruct (http_error _).
Qed.

Lemma fail_fast_cd {A} path (body : M A) :
  fail_fast w body → fail_fast w (cd w path body).
Proof.
  intros Hb s.
  unfold cd, getcwd, mbind, M_bind.
  destruct (is_dir w (cwd s)) eqn:Hcur.
  - unfold try_finally, chdir, mbind, M_bind.
    destruct (is_dir w path) eqn:Hpath.
    + destruct (Hb (set_cwd path s)) as (new & E & F).
      exists new.
      destruct (body (set_cwd path s)) as [[a|e] s1];
        cbn [fst snd outcome] in *; subst s1; cbn; by rewrite Hcur.
    + exists []. rewrite emit_nil. cbn. rewrite Hcur.
      split; [by destruct s|].
      apply fail_fast_run_nil. by intros e [= <-].
  - exists []. rewrite emit_nil. split; [done|].
    apply fail_fast_run_nil. by intros e [= <-].
Qed.

End FailFast.

Ltac fail_fast_go :=
  repeat first
    [ apply fail_fast_ret
    | apply fail_fast_raise; exact I
    | apply fail_fast_environ_get
    | apply fail_fast_environ_get_default
    | apply fail_fast_environ_getitem
    | apply fail_fast_cd
    | apply fail_fast_subprocess_run
    | apply fail_fast_get_changed_dependencies
    | apply fail_fast_post_last
    | apply fail_fast_post_checked; intros ?
    | apply fail_fast_get_checked; intros ?
    | apply fail_fast_bind; [|intros ?]
    | match goal with
      | |- fail_fast _ (if ?b then _ else _) => destruct b
      | |- fail_fast _ (match ?x with _ => _ end) => destruct x
      end
    | progress cbv zeta ].

Section FailFastScript.

Context (w : World).

Lemma fail_fast_setup_git_author : fail_fast w (_setup_git_author w).
Proof. unfold _setup_git_author. fail_fast_go. Qed.

Lemma fail_fast_create_commit m b : fail_fast w (create_commit w m b).
Proof. unfold create_commit. fail_fast_go. Qed.

Lemma fail_fast_push b u : fail_fast w (push w b u).
Proof. unfold push. fail_fast_go. Qed.

Lemma fail_fast_commit_message b : fail_fast w (commit_message w b).
Proof. unfold commit_message. fail_fast_go. Qed.

Lemma fail_fast_long_description b : fail_fast w (long_description w b).
Proof. unfold long_description. fail_fast_go. Qed.

Lemma fail_fast_list_pr_for_branch b t r : fail_fast w (list_pr_for_branch w b t r).
Proof. unfold list_pr_for_branch. fail_fast_go. Qed.

Lemma fail_fast_update_own_pr n t b r : fail_fast w (update_own_pr w n t b r).
Proof.
  unfold update_own_pr. cbv zeta.
  apply fail_fast_bind; [apply fail_fast_commit_message|intros title].
  apply fail_fast_bind; [apply fail_fast_long_description|intros body].
  apply fail_fast_post_last.
Qed.

Lemma fail_fast_create_pr b n t r u : fail_fast w (create_pr w b n t r u).
Proof.
  unfold create_pr. cbv zeta.
  apply fail_fast_bind; [apply fail_fast_commit_message|intros title].
  apply fail_fast_bind; [apply fail_fast_long_description|intros body].
  fail_fast_go.
Qed.

Lemma fail_fast_add_comment_to_pr n m t r : fail_fast w (add_comment_to_pr w n m t r).
Proof. unfold add_comment_to_pr. fail_fast_go. Qed.

Lemma fail_fast_get_pr_number : fail_fast w (get_pr_number w).
Proof. unfold get_pr_number. fail_fast_go. Qed.

Lemma fail_fast_create_pr_with_push b t r :
  fail_fast w (create_pr_with_push w b t r).
Proof.
  unfold create_pr_with_push. cbv zeta.
  apply fail_fast_bind; [fail_fast_go|intros repo].
  apply fail_fast_bind; [fail_fast_go|intros _].
  apply fail_fast_bind; [apply fail_fast_commit_message|intros message].
  apply fail_fast_bind; [apply fail_fast_create_commit|intros _].
  apply fail_fast_bind; [apply fail_fast_push|intros _].
  apply fail_fast_bind; [apply fail_fast_list_pr_for_branch|intros pr_number].
  apply fail_fast_if; [apply fail_fast_update_own_pr|apply fail_fast_create_pr].
Qed.

Lemma fail_fast_update_pr b t t' : fail_fast w (update_pr w b t t').
Proof.
  unfold update_pr.
  apply fail_fast_bind; [apply fail_fast_get_pr_number|intros pr_number].
  apply fail_fast_bind; [apply fail_fast_environ_get|intros target_repo].
  cbv zeta.
  apply fail_fast_bind; [apply fail_fast_commit_message|intros message].
  apply fail_fast_bind; [apply fail_fast_create_commit|intros _].
  apply fail_fast_bind; [apply fail_fast_long_description|intros content].
  apply fail_fast_bind; [apply fail_fast_push|intros _].
  apply fail_fast_bind; [apply fail_fast_environ_get_default|intros repo].
  apply fail_fast_add_comment_to_pr.
Qed.

Lemma fail_fast_main : fail_fast w (main w).
Proof.
  unfold main.
  apply fail_fast_bind; [apply fail_fast_environ_getitem|intros event_name].
  apply fail_fast_bind; [apply fail_fast_environ_getitem|intros branch_name].
  apply fail_fast_bind; [apply fail_fast_environ_get|intros access_token].
  apply fail_fast_bind; [apply fail_fast_environ_get|intros bot_access_token].
  apply fail_fast_bind; [apply fail_fast_setup_git_author|intros _].
  repeat apply fail_fast_if.
  - apply fail_fast_create_pr_with_push.
  - apply fail_fast_update_pr.
  - by apply fail_fast_raise.
Qed.

End FailFastScript.

(** ** Runs started in a known directory *)

Section FramesIn.

Context (w : World) (d : string) (P : Event → Prop).

Lemma frames_in_ret {A} (a : A) : frames_in d P (mret a : M A).
Proof. intros s _. exists []. by rewrite emit_nil. Qed.

Lemma frames_in_bind {A B} (m : M A) (f : A → M B) :
  frames_in d P m → (∀ a, frames_in d P (f a)) → frames_in d P (m ≫= f).
Proof.
  intros Hm Hf s Hd. unfold mbind, M_bind.
  destruct (Hm s Hd) as (n1 & E1 & F1).
  destruct (m s) as [[a|e] s1]; cbn [snd] in E1; subst s1.
  - destruct (Hf a (emit n1 s) Hd) as (n2 & E2 & F2).
    exists (n1 ++ n2). rewrite E2, emit_emit. split; [done|].
    by apply Forall_app.
  - by exists n1.
Qed.

Lemma frames_in_if {A} (b : bool) (m1 m2 : M A) :
  frames_in d P m1 → frames_in d P m2 → frames_in d P (if b then m1 else m2).
Proof. by destruct b. Qed.

Lemma frames_in_subprocess_run argv :
  P (EvRun d argv) → frames_in d P (subprocess_run w argv).
Proof.
  intros HP s Hd. exists [EvRun (cwd s) argv]. unfold subprocess_run.
  split; [by destruct (_ =? _)|]. rewrite Hd. by constructor.
Qed.

Lemma frames_in_get_changed_dependencies a b v src :
  P (EvQuery d a b v src) → frames_in d P (get_changed_dependencies w a b v src).
Proof.
  intros HP s Hd. exists [EvQuery (cwd s) a b v src].
  split; [done|]. rewrite Hd. by constructor.
Qed.

End FramesIn.

(** What the body of a [cd] does in the target directory is all [cd] does. *)
Lemma frames_cd_in (w : World) {A} (P : Event → Prop) path (body : M A) :
  frames_in path P body → frames P (cd w path body).
Proof.
  intros Hb s.
  unfold cd, getcwd, mbind, M_bind.
  destruct (is_dir w (cwd s)) eqn:Hcur; [|exists []; by rewrite emit_nil].
  unfold try_finally, chdir, mbind, M_bind.
  destruct (is_dir w path) eqn:Hpath.
  - destruct (Hb (set_cwd path s) eq_refl) as (new & E & F).
    exists new. split; [|done].
    destruct (body (set_cwd path s)) as [[a|e] s1]; cbn [snd] in E; subst s1;
      cbn; by rewrite Hcur.
  - exists []. rewrite emit_nil. cbn. rewrite Hcur. by destruct s.
Qed.

(** Decompose a flow; [side] settles what is asked of each event. *)
Ltac flow_go side :=
  repeat first
    [ apply frames_ret
    | apply frames_raise
    | apply frames_environ_get
    | apply frames_environ_get_default
    | apply frames_environ_getitem
    | apply frames_raise_for_status
    | apply frames_cd_in
    | apply frames_in_ret
    | apply frames_in_subprocess_run; side
    | apply frames_in_get_changed_dependencies; side
    | apply frames_in_bind; [|intros ?]
    | apply frames_subprocess_run; intros ?; side
    | apply frames_requests_get; side
    | apply frames_requests_post; side
    | apply frames_bind; [|intros ?]
    | match goal with
      | |- frames _ (if ?b then _ else _) => destruct b
      | |- frames _ (match ?x with _ => _ end) => destruct x
      | |- frames_in _ _ (if ?b then _ else _) => destruct b
      end
    | progress cbv zeta ].

(** ** What the flows read from the environment *)

Ltac blind_go_with side :=
  repeat first
    [ apply blind_ret
    | apply blind_raise
    | apply blind_raise_for_status
    | apply blind_environ_get; side
    | apply blind_environ_get_default; side
    | apply blind_cd
    | apply blind_subprocess_run
    | apply blind_get_changed_dependencies
    | apply blind_requests_get
    | apply blind_requests_post
    | apply blind_bind; [|intros ?]
    | match goal with
      | |- blind _ (if ?b then _ else _) => destruct b
      | |- blind _ (match ?x with _ => _ end) => destruct x
      end
    | progress cbv zeta ].

Section Reads.

Context (w : World) (k : string).

Lemma blind_run {A} (m : M A) v s :
  blind k m → same_run (m (environ_set k v s)) (m s).
Proof.
  intros Hm.
  destruct (Hm s (environ_set k v s) (same_but_environ_set k v s))
    as (E & _ & Ht & _).
  by split.
Qed.

Lemma setup_git_author_blind : blind k (_setup_git_author w).
Proof. unfold _setup_git_author. blind_go_with idtac. Qed.

Lemma create_pr_with_push_blind b tok repo :
  k ≠ "GITHUB_REPOSITORY" → blind k (create_pr_with_push w b tok repo).
Proof.
  intros H1.
  unfold create_pr_with_push, commit_message, create_commit, push,
    list_pr_for_branch, update_own_pr, create_pr, long_description.
  blind_go_with ltac:(congruence).
Qed.

Lemma update_pr_blind b t1 t2 :
  k ≠ "PR_NUMBER" → k ≠ "FULL_NAME" → k ≠ "GITHUB_REPOSITORY" →
  k ≠ "GITHUB_TOKEN" →
  blind k (update_pr w b t1 t2).
Proof.
  intros H1 H2 H3 H4.
  unfold update_pr, get_pr_number, commit_message, create_commit,
    long_description, push, add_comment_to_pr.
  blind_go_with ltac:(congruence).
Qed.

End Reads.

(** ** The dispatch *)

Section Dispatch.

Context (w : World).

Lemma main_scheduled_eq s e b :
  environ s !! "GITHUB_EVENT_NAME" = Some e → e ∈ scheduled_kinds →
  environ s !! "BRANCH" = Some b →
  main w s =
    (_setup_git_author w
     ≫= λ _, create_pr_with_push w b (environ s !! "GHA_TOKEN") "") s.
Proof.
  intros He Hin Hb.
  unfold main, mbind, M_bind, environ_getitem, environ_get.
  rewrite He, Hb.
  destruct (_setup_git_author w s) as [[[]|err] s1] eqn:Hs; [|done].
  rewrite bool_decide_eq_true_2; [done|].
  apply elem_of_cons in Hin as [->|Hin]; [set_solver|].
  apply elem_of_cons in Hin as [->|Hin]; [set_solver|].
  by apply elem_of_nil in Hin.
Qed.

Lemma main_cross_fork_eq s e b :
  environ s !! "GITHUB_EVENT_NAME" = Some e → e ∈ cross_fork_kinds →
  environ s !! "BRANCH" = Some b →
  main w s = (_setup_git_author w ≫= λ _, update_pr w b None None) s.
Proof.
  intros He Hin Hb.
  unfold main, mbind, M_bind, environ_getitem, environ_get.
  rewrite He, Hb.
  destruct (_setup_git_author w s) as [[[]|err] s1] eqn:Hs; [|done].
  assert (e = "issue_comment" ∨ e = "pull_request") as Hcase.
  { apply elem_of_cons in Hin as [->|Hin]; [by left|].
    apply elem_of_cons in Hin as [->|Hin]; [by right|].
    by apply elem_of_nil in Hin. }
  rewrite bool_decide_eq_false_2.
  - rewrite bool_decide_eq_true_2; [done|].
    destruct Hcase as [->| ->]; set_solver.
  - destruct Hcase as [->| ->]; intros Hin';
      apply elem_of_union in Hin' as [Hin'|Hin'];
      by apply elem_of_singleton in Hin'.
Qed.

End Dispatch.

(** ** [split] *)

Lemma split_nonempty c s : split c s ≠ [].
Proof.
  destruct s as [|x r]; [done|]. cbn [split].
  destruct (Ascii.eqb x c); [done|]. by destruct (split c r).
Qed.

Lemma split_cons_sep c owner rest :
  has_char c owner = false →
  split c (owner +:+ String c rest) = owner :: split c rest.
Proof.
  induction owner as [|x owner IH]; intros Hno.
  - change ("" +:+ String c rest) with (String c rest). cbn [split].
    by rewrite Ascii.eqb_refl.
  - cbn [has_char] in Hno. apply orb_false_iff in Hno as [Hx Hno].
    change (String x owner +:+ String c rest)
      with (String x (owner +:+ String c rest)).
    cbn [split]. by rewrite Hx, IH.
Qed.

Lemma split_no_sep c s : has_char c s = false → split c s = [s].
Proof.
  induction s as [|x s IH]; intros Hno; [done|].
  cbn [has_char] in Hno. apply orb_false_iff in Hno as [Hx Hno].
  cbn [split]. by rewrite Hx, IH.
Qed.

Lemma split_pieces c s : Forall (λ x, has_char c x = false) (split c s).
Proof.
  induction s as [|x s IH]; [by repeat constructor|].
  cbn [split]. destruct (Ascii.eqb x c) eqn:Hx; [by constructor|].
  destruct (split c s) as [|y ys]; [by repeat constructor; cbn; rewrite Hx|].
  apply Forall_cons in IH as [Hy Hys].
  constructor; [|done]. cbn. by rewrite Hx.
Qed.

Lemma join_cons_cons sep x y ys :
  join sep (x :: y :: ys) = x +:+ sep +:+ join sep (y :: ys).
Proof. reflexivity. Qed.

(** [sep.join(s.split(sep)) == s] *)
Lemma join_split c s : join (String c "") (split c s) = s.
Proof.
  induction s as [|x s IH]; [done|].
  cbn [split]. destruct (Ascii.eqb_spec x c) as [->|Hx].
  - pose proof (split_nonempty c s) as Hne.
    destruct (split c s) as [|y ys]; [done|].
    rewrite join_cons_cons, IH. reflexivity.
  - destruct (split c s) as [|y ys] eqn:Hs; [by destruct (split_nonempty c s)|].
    destruct ys as [|z ys].
    + cbn [join] in *. by rewrite IH.
    + rewrite join_cons_cons in *.
      change (String x y +:+ String c "" +:+ join (String c "") (z :: ys))
        with (String x (y +:+ String c "" +:+ join (String c "") (z :: ys))).
      by rewrite IH.
Qed.

(** The first piece: free of the separator, and a prefix of the string that
    the separator, if anything, follows. *)
Lemma split_head c s :
  ∃ org, head (split c s) = Some org
         ∧ has_char c org = false
         ∧ (s = org ∨ ∃ rest, s = org +:+ String c rest).
Proof.
  pose proof (split_pieces c s) as Hp. pose proof (join_split c s) as Hj.
  destruct (split c s) as [|org ys] eqn:Hs; [by destruct (split_nonempty c s)|].
  exists org. split; [done|]. apply Forall_cons in Hp as [Horg _].
  split; [done|]. destruct ys as [|z ys].
  - left. by cbn in Hj.
  - right. exists (join (String c "") (z :: ys)).
    rewrite join_cons_cons in Hj. by rewrite <- Hj.
Qed.

(** ** The HTTP helpers in full *)

Section Helpers.

Context (w : World).

Lemma list_pr_for_branch_state nb tok repo s :
  (list_pr_for_branch w nb tok repo s).2 = emit [lookup_call repo nb] s.
Proof.
  unfold list_pr_for_branch, mbind, M_bind, requests_get, raise_for_status.
  cbv zeta. rewrite log_event_emit. fold (lookup_call repo nb).
  destruct (http_error _); [done|].
  unfold mret, M_ret. by destruct (json _).
Qed.

(** The title and the body [create_pr] and [update_own_pr] compute. *)
Lemma title_and_body (Hrepo : is_dir w (REPO_DIR w) = true) base s :
  is_dir w (cwd s) = true →
  ∃ title body,
    commit_message w base s =
      (Ok title, emit [EvQuery (REPO_DIR w) false base "3.11" (REPO_DIR w)] s)
    ∧ long_description w base
        (emit [EvQuery (REPO_DIR w) false base "3.11" (REPO_DIR w)] s) =
      (Ok body,
       emit [EvQuery (REPO_DIR w) false base "3.11" (REPO_DIR w);
             EvQuery (REPO_DIR w) true base "3.11" (REPO_DIR w)] s).
Proof.
  intros Hcur. eexists _, _.
  rewrite commit_message_run, long_description_run by done.
  rewrite emit_emit. by split.
Qed.

(** [create_pr], whatever the platform answers. *)
Lemma create_pr_full base new_branch tok repo source_user s title body :
  commit_message w base s =
    (Ok title, emit [EvQuery (REPO_DIR w) false base "3.11" (REPO_DIR w)] s) →
  long_description w base
    (emit [EvQuery (REPO_DIR w) false base "3.11" (REPO_DIR w)] s) =
    (Ok body,
     emit [EvQuery (REPO_DIR w) false base "3.11" (REPO_DIR w);
           EvQuery (REPO_DIR w) true base "3.11" (REPO_DIR w)] s) →
  let e :=
    EvPost (BASE_URL +:+ "/repos/" +:+ repo +:+ "/pulls")
           [("Authorization", "token " +:+ str_opt tok)]
           [("title", PStr title); ("body", PStr body);
            ("head", PStr (if nonempty source_user
                           then source_user +:+ ":" +:+ new_branch
                           else new_branch));
            ("base", PStr base); ("maintainer_can_modify", PBool true)] in
  let new := [EvQuery (REPO_DIR w) false base "3.11" (REPO_DIR w);
              EvQuery (REPO_DIR w) true base "3.11" (REPO_DIR w); e] in
  let response := post_response w (trace s ++ new) in
  create_pr w base new_branch tok repo source_user s =
    (if http_error response then Raise (HTTPError (status_code response))
     else match dict_get "html_url" (json response) with
          | Some _ => Ok ()
          | None => Raise (KeyError "html_url")
          end,
     emit new s).
Proof.
  intros Hc Hl.
  unfold create_pr, mbind, M_bind. cbv zeta.
  rewrite Hc, Hl.
  unfold requests_post. rewrite log_event_emit, !emit_emit.
  cbn [trace emit app].
  destruct (nonempty source_user); cbn -[http_error];
    unfold raise_for_status;
    (destruct (http_error _); [reflexivity|]);
    unfold mret, M_ret; by destruct (dict_get _ _).
Qed.

End Helpers.

(** * The claims *)

(** C1: in the scheduled flow, once the open-PR lookup for the derived
    branch has answered: an empty list leads to exactly one POST, the
    create-PR call for that branch; a list with at least one entry leads to
    exactly one POST, the update-metadata call for the pull request whose
    number is the [number] of the first entry. *)
Theorem scheduled_flow_creates_or_updates (w : World) (b : string)
    (token : option string) (repo : string) (s : State)
    (pulls : list PullRequest) :
  is_dir w (REPO_DIR w) = true →
  is_dir w (cwd s) = true →
  (∀ h, returncode_of w h = 0) →
  (∀ h, http_error (get_response w h) = false) →
  (∀ h, json (get_response w h) = pulls) →
  let nb := if String.eqb b "main" then "auto-update-dependencies"
            else "auto-update-dependencies-" +:+ b in
  (pulls = [] →
   ∃ pre e r,
     create_pr_with_push w b token repo s = (r, emit (pre ++ [e]) s)
     ∧ posts pre = []
     ∧ is_create_call (effective_repo repo s) nb b e)
  ∧ (∀ pr rest,
       pulls = pr :: rest →
       ∃ pre e r,
         create_pr_with_push w b token repo s = (r, emit (pre ++ [e]) s)
         ∧ posts pre = []
         ∧ is_update_call (effective_repo repo s) (Z.pos (number pr)) e).
Proof.
  intros Hrepo Hcur Hgit Hok Hjson nb.
  destruct (create_pr_with_push_run w Hrepo Hgit b token repo s Hcur)
    as (message & E).
  cbv zeta in E. fold nb in E. fold (effective_repo repo s) in E.
  unfold mbind, M_bind in E.
  rewrite list_pr_for_branch_run in E by apply Hok.
  rewrite Hjson in E.
  split.
  - intros ->. cbn [head fmap option_fmap option_map truthy] in E.
    destruct (create_pr_run w Hrepo b nb token (effective_repo repo s)
                (emit [lookup_call (effective_repo repo s) nb]
                   (emit (scheduled_git_steps w b nb message) s)) Hcur)
      as (title & body & r & E').
    unfold lookup_call, scheduled_git_steps in E'.
    rewrite E' in E. rewrite E, !emit_emit.
    cbn [app].
    eexists [_; _; _; _; _; _; _; _], _, r. split; [reflexivity|].
    split; [reflexivity|]. by eexists _, title, body.
  - intros pr rest ->.
    cbn [head fmap option_fmap option_map truthy default Z.eqb negb] in E.
    change (id (Z.pos (number pr))) with (Z.pos (number pr)) in E.
    destruct (update_own_pr_run w Hrepo (Z.pos (number pr)) token b
                (effective_repo repo s)
                (emit [lookup_call (effective_repo repo s) nb]
                   (emit (scheduled_git_steps w b nb message) s)) Hcur)
      as (title & body & r & E').
    unfold lookup_call, scheduled_git_steps in E'.
    rewrite E' in E. rewrite E, !emit_emit.
    cbn [app].
    eexists [_; _; _; _; _; _; _; _], _, r. split; [reflexivity|].
    split; [reflexivity|]. by eexists _, title, body.
Qed.

Lemma scheduled_flow_creates_or_updates_witness :
  ∃ pre e r,
    create_pr_with_push
      (demo_world ["numpy"] ["numpy"; "six"] [ {| number := 7%positive |} ])
      "main" None "" (demo_state [])
      = (r, emit (pre ++ [e]) (demo_state []))
    ∧ posts pre = []
    ∧ is_update_call "napari/napari" 7 e.
Proof.
  apply (proj2 (scheduled_flow_creates_or_updates
                  (demo_world ["numpy"] ["numpy"; "six"]
                              [ {| number := 7%positive |} ])
                  "main" None "" (demo_state []) [ {| number := 7%positive |} ]
                  eq_refl eq_refl (λ _, eq_refl) (λ _, eq_refl) (λ _, eq_refl))
           {| number := 7%positive |} [] eq_refl).
Defined.

(** C2: in the scheduled flow, for the input branch "main" the working
    branch is exactly "auto-update-dependencies", and for any other branch
    [b] it is exactly "auto-update-dependencies-" followed by [b]: that is
    the name checked out, pushed to [origin] and looked up among the open
    pull requests. *)
Theorem scheduled_working_branch_name (w : World) (b : string)
    (token : option string) (repo : string) (s : State) :
  is_dir w (REPO_DIR w) = true →
  is_dir w (cwd s) = true →
  (∀ h, returncode_of w h = 0) →
  (b = "main" →
   ∃ message rest r,
     create_pr_with_push w b token repo s =
       (r, emit (scheduled_git_steps w b "auto-update-dependencies" message
                 ++ lookup_call (effective_repo repo s) "auto-update-dependencies"
                 :: rest) s))
  ∧ (b ≠ "main" →
     ∃ message rest r,
       create_pr_with_push w b token repo s =
         (r, emit (scheduled_git_steps w b ("auto-update-dependencies-" +:+ b)
                                       message
                   ++ lookup_call (effective_repo repo s)
                                  ("auto-update-dependencies-" +:+ b)
                   :: rest) s)).
Proof.
  intros Hrepo Hcur Hgit.
  pose proof (create_pr_with_push_steps w Hrepo Hgit b token repo s Hcur) as H.
  cbv zeta in H. split.
  - intros Hb. apply String.eqb_eq in Hb. by rewrite Hb in H.
  - intros Hb. apply String.eqb_neq in Hb. by rewrite Hb in H.
Qed.

Lemma scheduled_working_branch_name_witness :
  ∃ message rest r,
    create_pr_with_push (demo_world ["numpy"] ["numpy"] []) "v0.5.x" None ""
                        (demo_state []) =
      (r, emit (scheduled_git_steps (demo_world ["numpy"] ["numpy"] []) "v0.5.x"
                                    "auto-update-dependencies-v0.5.x" message
                ++ lookup_call "napari/napari" "auto-update-dependencies-v0.5.x"
                :: rest) (demo_state [])).
Proof.
  apply (proj2 (scheduled_working_branch_name
                  (demo_world ["numpy"] ["numpy"] []) "v0.5.x" None ""
                  (demo_state []) eq_refl eq_refl (λ _, eq_refl))).
  discriminate.
Defined.

(** C3: for every branch name, when the dependency query restricted to
    direct dependencies ([all_packages=False]) answers with the empty
    sequence, [commit_message] returns exactly
    "Update indirect dependencies".  (The query is reached whenever the
    checkout directory and the current directory exist.) *)
Theorem commit_message_no_direct_change (w : World) (b : string) (s : State) :
  is_dir w (REPO_DIR w) = true →
  is_dir w (cwd s) = true →
  changed_dependencies w
    (trace s ++ [EvQuery (REPO_DIR w) false b "3.11" (REPO_DIR w)]) = [] →
  commit_message w b s =
    (Ok "Update indirect dependencies",
     emit [EvQuery (REPO_DIR w) false b "3.11" (REPO_DIR w)] s).
Proof.
  intros Hrepo Hcur Hq.
  rewrite commit_message_run by done. cbv zeta. by rewrite Hq.
Qed.

Lemma commit_message_no_direct_change_witness :
  commit_message (demo_world [] ["six"] []) "v0.5.x" (demo_state []) =
    (Ok "Update indirect dependencies",
     emit [EvQuery "/home/runner/work/napari_repo" false "v0.5.x" "3.11"
                   "/home/runner/work/napari_repo"] (demo_state [])).
Proof.
  apply (commit_message_no_direct_change
           (demo_world [] ["six"] []) "v0.5.x" (demo_state []));
    reflexivity.
Defined.

(** C4: for every non-empty answer [p1, p2, ...] of the direct-dependency
    query, [commit_message] returns "Update " followed by the names, each
    in backticks, joined by ", " in the order of the answer. *)
Theorem commit_message_direct_changes (w : World) (b : string) (s : State)
    (changed_direct : list string) :
  is_dir w (REPO_DIR w) = true →
  is_dir w (cwd s) = true →
  changed_dependencies w
    (trace s ++ [EvQuery (REPO_DIR w) false b "3.11" (REPO_DIR w)])
    = changed_direct →
  changed_direct ≠ [] →
  commit_message w b s =
    (Ok ("Update " +:+ backticked_listing changed_direct),
     emit [EvQuery (REPO_DIR w) false b "3.11" (REPO_DIR w)] s).
Proof.
  intros Hrepo Hcur Hq Hne.
  rewrite commit_message_run by done. cbv zeta. rewrite Hq.
  destruct changed_direct as [|p ps]; [done|].
  by rewrite join_backticked.
Qed.

Lemma commit_message_direct_changes_witness :
  commit_message (demo_world ["numpy"; "scipy"; "dask"] [] []) "main"
                 (demo_state []) =
    (Ok "Update `numpy`, `scipy`, `dask`",
     emit [EvQuery "/home/runner/work/napari_repo" false "main" "3.11"
                   "/home/runner/work/napari_repo"] (demo_state [])).
Proof.
  apply (commit_message_direct_changes
           (demo_world ["numpy"; "scipy"; "dask"] [] []) "main" (demo_state [])
           ["numpy"; "scipy"; "dask"]);
    [reflexivity..|discriminate].
Defined.

(** C5: for every branch name and every answer of the unrestricted query
    ([all_packages=True]), [long_description] returns "Updated packages: "
    followed by the names in backticks joined by ", ". *)
Theorem long_description_lists_all (w : World) (b : string) (s : State) :
  is_dir w (REPO_DIR w) = true →
  is_dir w (cwd s) = true →
  long_description w b s =
    (Ok ("Updated packages: " +:+
         backticked_listing
           (changed_dependencies w
              (trace s ++ [EvQuery (REPO_DIR w) true b "3.11" (REPO_DIR w)]))),
     emit [EvQuery (REPO_DIR w) true b "3.11" (REPO_DIR w)] s).
Proof.
  intros Hrepo Hcur.
  rewrite long_description_run by done. cbv zeta.
  by rewrite join_backticked.
Qed.

Lemma long_description_lists_all_witness :
  long_description (demo_world ["numpy"] ["numpy"; "six"] []) "main"
                   (demo_state []) =
    (Ok "Updated packages: `numpy`, `six`",
     emit [EvQuery "/home/runner/work/napari_repo" true "main" "3.11"
                   "/home/runner/work/napari_repo"] (demo_state [])).
Proof.
  apply (long_description_lists_all
           (demo_world ["numpy"] ["numpy"; "six"] []) "main" (demo_state []));
    reflexivity.
Defined.

(** C6: with event kind "pull_request", branch "feature-x", PR number "42"
    and the contributor's repository [repo] in [FULL_NAME], on a run whose
    git commands succeed: after the author setup, the run commits on branch
    "auto-update-dependencies/{repo}/feature-x", force-pushes that branch to
    the remote [napari-bot], and then POSTs one comment to issue 42 whose
    text contains the compare link
    "https://github.com/{repo}/compare/feature-x...napari-bot:{that branch}". *)
Theorem pull_request_event_scenario (w : World) (s : State) (repo : string) :
  environ s !! "GITHUB_EVENT_NAME" = Some "pull_request" →
  environ s !! "BRANCH" = Some "feature-x" →
  environ s !! "PR_NUMBER" = Some "42" →
  environ s !! "FULL_NAME" = Some repo →
  is_dir w (REPO_DIR w) = true →
  is_dir w (cwd s) = true →
  (∀ h, returncode_of w h = 0) →
  ∃ message body r,
    main w s =
      (r, emit [EvRun (cwd s) ["git"; "config"; "--global"; "user.name";
                               "napari-bot"];
                EvRun (cwd s) ["git"; "config"; "--global"; "user.email";
                               "napari-bot@users.noreply.github.com"];
                EvQuery (REPO_DIR w) false "feature-x" "3.11" (REPO_DIR w);
                EvRun (REPO_DIR w)
                      ["git"; "checkout"; "-B";
                       "auto-update-dependencies/" +:+ repo +:+ "/feature-x"];
                EvRun (REPO_DIR w) ["git"; "add"; "-u"];
                EvRun (REPO_DIR w) ["git"; "commit"; "-m"; message];
                EvQuery (REPO_DIR w) true "origin/feature-x" "3.11" (REPO_DIR w);
                EvRun (REPO_DIR w)
                      ["git"; "push"; "--force"; "--set-upstream"; "napari-bot";
                       "auto-update-dependencies/" +:+ repo +:+ "/feature-x"];
                EvPost (BASE_URL +:+ "/repos/"
                        +:+ default "napari/napari"
                                    (environ s !! "GITHUB_REPOSITORY")
                        +:+ "/issues/42/comments")
                       [("Authorization",
                         "token " +:+ str_opt (environ s !! "GITHUB_TOKEN"))]
                       [("body", PStr body)]] s)
    ∧ contains ("https://github.com/" +:+ repo
                +:+ "/compare/feature-x...napari-bot:"
                +:+ "auto-update-dependencies/" +:+ repo +:+ "/feature-x")
               body.
Proof.
  intros Hev Hbranch Hnum Hfull Hrepo Hcur Hgit.
  unfold main.
  unfold mbind at 1, M_bind at 1, environ_getitem at 1. rewrite Hev.
  unfold mbind at 1, M_bind at 1, environ_getitem at 1. rewrite Hbranch.
  unfold mbind at 1, M_bind at 1, environ_get at 1.
  unfold mbind at 1, M_bind at 1, environ_get at 1.
  unfold mbind at 1, M_bind at 1. rewrite _setup_git_author_ok by done.
  replace (bool_decide ("pull_request" ∈
             ({["schedule"; "workflow_dispatch"]} : gset string)))
    with false by (vm_compute; reflexivity).
  replace (bool_decide ("pull_request" ∈
             ({["issue_comment"; "pull_request"]} : gset string)))
    with true by (vm_compute; reflexivity).
  set (s1 := emit _ s).
  destruct (update_pr_run w Hrepo Hgit "feature-x"
              (environ s !! "GHA_TOKEN") (environ s !! "GHA_TOKEN_2")
              s1 "42" 42 Hcur Hnum eq_refl)
    as (message & body & r & E & Hlink & _).
  cbn [s1 emit environ] in E, Hlink. rewrite Hfull in E, Hlink.
  exists message, body, r. split; [|exact Hlink].
  rewrite E. fold s1. unfold s1. rewrite emit_emit. reflexivity.
Qed.

Lemma pull_request_event_scenario_witness :
  ∃ message body r,
    main (demo_world ["numpy"] ["numpy"; "six"] [])
         (demo_state [("GITHUB_EVENT_NAME", "pull_request");
                      ("BRANCH", "feature-x"); ("PR_NUMBER", "42");
                      ("FULL_NAME", "alice/napari")]) =
      (r, emit [EvRun "/home/runner/work"
                      ["git"; "config"; "--global"; "user.name"; "napari-bot"];
                EvRun "/home/runner/work"
                      ["git"; "config"; "--global"; "user.email";
                       "napari-bot@users.noreply.github.com"];
                EvQuery "/home/runner/work/napari_repo" false "feature-x" "3.11"
                        "/home/runner/work/napari_repo";
                EvRun "/home/runner/work/napari_repo"
                      ["git"; "checkout"; "-B";
                       "auto-update-dependencies/alice/napari/feature-x"];
                EvRun "/home/runner/work/napari_repo" ["git"; "add"; "-u"];
                EvRun "/home/runner/work/napari_repo"
                      ["git"; "commit"; "-m"; message];
                EvQuery "/home/runner/work/napari_repo" true "origin/feature-x"
                        "3.11" "/home/runner/work/napari_repo";
                EvRun "/home/runner/work/napari_repo"
                      ["git"; "push"; "--force"; "--set-upstream"; "napari-bot";
                       "auto-update-dependencies/alice/napari/feature-x"];
                EvPost "https://api.github.com/repos/napari/napari/issues/42/comments"
                       [("Authorization", "token None")]
                       [("body", PStr body)]]
             (demo_state [("GITHUB_EVENT_NAME", "pull_request");
                          ("BRANCH", "feature-x"); ("PR_NUMBER", "42");
                          ("FULL_NAME", "alice/napari")]))
    ∧ contains "https://github.com/alice/napari/compare/feature-x...napari-bot:auto-update-dependencies/alice/napari/feature-x"
               body.
Proof.
  apply (pull_request_event_scenario
           (demo_world ["numpy"] ["numpy"; "six"] [])
           (demo_state [("GITHUB_EVENT_NAME", "pull_request");
                        ("BRANCH", "feature-x"); ("PR_NUMBER", "42");
                        ("FULL_NAME", "alice/napari")])
           "alice/napari");
    reflexivity.
Defined.

(** C7: when the event kind is none of "schedule", "workflow_dispatch",
    "issue_comment", "pull_request", the run ends in an exception and the
    only external interactions it has performed are the [git config] calls
    of the author setup that precedes the dispatch: no checkout, add, commit
    or push, no dependency query and no HTTP request.  When the branch is
    configured and the author setup succeeds, the exception is the
    [ValueError] naming the event. *)
Theorem main_unknown_event_is_fatal (w : World) (s : State) (event_name : string) :
  environ s !! "GITHUB_EVENT_NAME" = Some event_name →
  event_name ∉ ["schedule"; "workflow_dispatch"; "issue_comment"; "pull_request"] →
  ∃ err new,
    main w s = (Raise err, emit new s)
    ∧ Forall is_author_setup new
    ∧ (is_Some (environ s !! "BRANCH") → (∀ h, returncode_of w h = 0) →
       err = ValueError ("Unknown event name: " +:+ event_name)
       ∧ length new = 2%nat).
Proof.
  intros Hev Hnot.
  assert (H1 : bool_decide
                 (event_name ∈ ({["schedule"; "workflow_dispatch"]} : gset string))
               = false).
  { apply bool_decide_eq_false_2. intros Hin. apply Hnot.
    apply elem_of_union in Hin as [Hin|Hin];
      apply elem_of_singleton in Hin as ->;
      repeat first [by left | right]. }
  assert (H2 : bool_decide
                 (event_name ∈ ({["issue_comment"; "pull_request"]} : gset string))
               = false).
  { apply bool_decide_eq_false_2. intros Hin. apply Hnot.
    apply elem_of_union in Hin as [Hin|Hin];
      apply elem_of_singleton in Hin as ->;
      repeat first [by left | right]. }
  unfold main, mbind, M_bind, environ_getitem, environ_get.
  rewrite Hev, H1, H2.
  destruct (environ s !! "BRANCH") as [b|] eqn:Hb.
  - destruct (author_setup_only w s) as (new & E & F).
    destruct (_setup_git_author w s) as [[[]|err] s1] eqn:Hs;
      cbn [snd] in E; subst s1.
    + exists (ValueError ("Unknown event name: " +:+ event_name)), new.
      split; [reflexivity|]. split; [done|].
      intros _ Hgit. split; [done|].
      pose proof (f_equal (λ p, length (trace p.2)) Hs) as Hlen.
      cbn beta in Hlen.
      rewrite (f_equal (λ p, length (trace p.2))
                       (_setup_git_author_ok w Hgit s)) in Hlen.
      cbn in Hlen. rewrite !length_app in Hlen. cbn in Hlen. lia.
    + exists err, new. split; [reflexivity|]. split; [done|].
      intros _ Hgit. rewrite _setup_git_author_ok in Hs by done. done.
  - exists (KeyError "BRANCH"), []. rewrite emit_nil.
    split; [reflexivity|]. split; [constructor|].
    intros [b' Hb']. done.
Qed.

Lemma main_unknown_event_is_fatal_witness :
  ∃ err new,
    main (demo_world [] [] []) (demo_state [("GITHUB_EVENT_NAME", "push");
                                            ("BRANCH", "main")])
    = (Raise err, emit new (demo_state [("GITHUB_EVENT_NAME", "push");
                                        ("BRANCH", "main")]))
    ∧ Forall is_author_setup new.
Proof.
  destruct (main_unknown_event_is_fatal
              (demo_world [] [] [])
              (demo_state [("GITHUB_EVENT_NAME", "push"); ("BRANCH", "main")])
              "push") as (err & new & E & F & _).
  - reflexivity.
  - intros Hin. repeat (apply elem_of_cons in Hin as [Hin|Hin]; [discriminate|]).
    by apply elem_of_nil in Hin.
  - by exists err, new.
Defined.



(** C9: [add_comment_to_pr] does not depend on its [access_token] argument:
    for any two tokens, in the same state, it behaves identically, and the
    one request it sends carries an [Authorization] header built from the
    [GITHUB_TOKEN] environment variable. *)
Theorem add_comment_ignores_access_token (w : World) (n : Z)
    (message repo : string) (token1 token2 : option string) (s : State) :
  add_comment_to_pr w n message token1 repo s =
  add_comment_to_pr w n message token2 repo s
  ∧ ∃ r,
      add_comment_to_pr w n message token1 repo s =
        (r, emit [EvPost (BASE_URL +:+ "/repos/" +:+ repo +:+ "/issues/"
                          +:+ pretty n +:+ "/comments")
                         [("Authorization",
                           "token " +:+ str_opt (environ s !! "GITHUB_TOKEN"))]
                         [("body", PStr message)]] s).
Proof.
  split; [reflexivity|].
  rewrite add_comment_to_pr_run. cbv zeta.
  eexists. apply injective_projections; [reflexivity|].
  apply raise_for_status_state.
Qed.

(** C10: for every branch name, tokens and state (so for every repository
    value in the environment), any comment [update_pr] posts has a text that
    contains the characters "{os.environ.get('GITHUB_RUN_ID')}" as they
    stand in the source: the run-id segment is an ordinary string, not an
    interpolated one.  When the checkout directory exists, the PR number
    parses and git succeeds, such a comment is indeed posted.  And the value
    of [GITHUB_RUN_ID] has no influence on the run: setting it to anything
    changes neither the outcome nor any request. *)
Theorem update_pr_comment_keeps_placeholder (w : World) (b : string)
    (token bot_token : option string) :
  frames is_placeholder_comment (update_pr w b token bot_token)
  ∧ (∀ s lit n,
       is_dir w (REPO_DIR w) = true → is_dir w (cwd s) = true →
       (∀ h, returncode_of w h = 0) →
       environ s !! "PR_NUMBER" = Some lit → py_int w lit = Some n →
       ∃ url hdrs body,
         last (trace (update_pr w b token bot_token s).2)
           = Some (EvPost url hdrs [("body", PStr body)])
         ∧ contains "{os.environ.get('GITHUB_RUN_ID')}" body)
  ∧ (∀ s v,
       (update_pr w b token bot_token (environ_set "GITHUB_RUN_ID" v s)).1
         = (update_pr w b token bot_token s).1
       ∧ trace (update_pr w b token bot_token
                          (environ_set "GITHUB_RUN_ID" v s)).2
         = trace (update_pr w b token bot_token s).2).
Proof.
  split; [|split].
  - assert (Hweak : ∀ e, no_post e → is_placeholder_comment e).
    { intros [] He; try done; intros ? ? ? [=]. }
    unfold update_pr.
    apply frames_bind;
      [eapply frames_weaken, no_post_get_pr_number; done|intros pr_number].
    apply frames_bind; [apply frames_environ_get|intros target_repo]. cbv zeta.
    apply frames_bind;
      [eapply frames_weaken, no_post_commit_message; done|intros message].
    apply frames_bind;
      [eapply frames_weaken, no_post_create_commit; done|intros _].
    apply frames_bind;
      [eapply frames_weaken, no_post_long_description; done|intros content].
    apply frames_bind; [eapply frames_weaken, no_post_push; done|intros _].
    apply frames_bind; [apply frames_environ_get_default|intros repo].
    unfold add_comment_to_pr.
    apply frames_bind; [apply frames_environ_get|intros tok]. cbv zeta.
    apply frames_bind; [|intros ?; apply frames_raise_for_status].
    apply frames_requests_post.
    intros url hdrs payload [= <- <- <-]. eexists. split; [reflexivity|].
    do 2 apply contains_app_r. apply contains_app_l.
    by exists "from the run https://github.com/PartSeg/napari/actions/runs/", "".
  - intros s lit n Hrepo Hcur Hgit Hlit Hn.
    destruct (update_pr_run w Hrepo Hgit b token bot_token s lit n Hcur Hlit Hn)
      as (message & body & r & E & _ & Hph).
    rewrite E. cbn [snd emit trace].
    eexists _, _, body. split; [|done].
    rewrite last_app_cons. reflexivity.
  - intros s v.
    destruct (update_pr_blind_to_run_id w b token bot_token s
                (environ_set "GITHUB_RUN_ID" v s)
                (same_but_environ_set "GITHUB_RUN_ID" v s))
      as (E & _ & Ht & _).
    by split.
Qed.

Lemma update_pr_comment_keeps_placeholder_witness :
  ∃ url hdrs body,
    last (trace (update_pr (demo_world ["numpy"] ["numpy"; "six"] [])
                           "feature-x" None None
                           (demo_state [("PR_NUMBER", "42")])).2)
      = Some (EvPost url hdrs [("body", PStr body)])
    ∧ contains "{os.environ.get('GITHUB_RUN_ID')}" body.
Proof.
  apply (proj1 (proj2 (update_pr_comment_keeps_placeholder
                         (demo_world ["numpy"] ["numpy"; "six"] [])
                         "feature-x" None None))
           (demo_state [("PR_NUMBER", "42")]) "42" 42);
    reflexivity.
Defined.
(** * Further properties of the script *)

(** X1: the run is fatal on first error.  Whatever the outside answers, every
    interaction of a run of [main] except possibly the last one succeeded:
    nothing is attempted after a failed git command or an error response.
    And a run that returns normally has had no failed interaction at all. *)
Theorem main_stops_at_first_failure (w : World) (s : State) :
  ∃ new,
    (main w s).2 = emit new s
    ∧ (∀ i, (S i < length new)%nat →
            step_failed w (trace s ++ take (S i) new) = false)
    ∧ ((main w s).1 = Ok () →
       ∀ i, (i < length new)%nat →
            step_failed w (trace s ++ take (S i) new) = false).
Proof.
  destruct (fail_fast_main w s) as (new & E & A & B & _).
  exists new. split; [done|]. split; [done|].
  intros Hok i Hi. rewrite Hok in B. cbn in B.
  destruct (decide (S i < length new)%nat) as [Hlt|Hge]; [by apply A|].
  rewrite take_ge by lia. apply B; [done|].
  intros ->. cbn in Hi. lia.
Qed.

Lemma main_stops_at_first_failure_witness :
  ∃ new,
    (main (demo_world [] ["six"] [])
          (demo_state [("GITHUB_EVENT_NAME", "schedule"); ("BRANCH", "main")])).2
      = emit new (demo_state [("GITHUB_EVENT_NAME", "schedule");
                              ("BRANCH", "main")])
    ∧ ∀ i, (i < length new)%nat →
           step_failed (demo_world [] ["six"] [])
             (trace (demo_state [("GITHUB_EVENT_NAME", "schedule");
                                 ("BRANCH", "main")]) ++ take (S i) new)
           = false.
Proof.
  destruct (main_stops_at_first_failure
              (demo_world [] ["six"] [])
              (demo_state [("GITHUB_EVENT_NAME", "schedule"); ("BRANCH", "main")]))
    as (new & E & _ & B).
  exists new. split; [exact E|]. apply B. vm_compute. reflexivity.
Defined.

(** X2: the exception names the interaction that failed.  When [main] ends
    with [CalledProcessError rc argv], the last thing the run did was to run
    [argv], and that child process exited with the non-zero status [rc].
    When it ends with [HTTPError st], the last thing the run did was a GET
    or a POST, answered with the status [st], a client or server error. *)
Theorem main_error_reports_last_step (w : World) (s : State) :
  (∀ rc argv,
     (main w s).1 = Raise (CalledProcessError rc argv) →
     ∃ dir, last (trace (main w s).2) = Some (EvRun dir argv)
            ∧ returncode_of w (trace (main w s).2) = rc ∧ rc ≠ 0)
  ∧ (∀ st,
       (main w s).1 = Raise (HTTPError st) →
       400 ≤ st < 600
       ∧ ((∃ url, last (trace (main w s).2) = Some (EvGet url)
                  ∧ status_code (get_response w (trace (main w s).2)) = st)
          ∨ (∃ url hdrs payload,
               last (trace (main w s).2) = Some (EvPost url hdrs payload)
               ∧ status_code (post_response w (trace (main w s).2)) = st))).
Proof.
  destruct (fail_fast_main w s) as (new & E & _ & _ & C & D).
  rewrite E. cbn [trace emit]. split.
  - intros rc argv Hr. rewrite Hr in C.
    destruct (C rc argv eq_refl) as (pre & dir & -> & Hrc & Hnz).
    exists dir. split; [|done]. by rewrite !app_assoc, last_snoc.
  - intros st Hr. rewrite Hr in D.
    destruct (D st eq_refl) as (pre & e & -> & Hf & He).
    rewrite app_assoc, step_failed_snoc in Hf. rewrite <- app_assoc in Hf.
    assert (Hlast : last (trace s ++ pre ++ [e]) = Some e)
      by (by rewrite app_assoc, last_snoc).
    destruct He as [(url & -> & Hst)|(url & hdrs & payload & -> & Hst)].
    + split.
      * unfold http_error in Hf. rewrite Hst in Hf.
        apply andb_true_iff in Hf as [H1 H2].
        apply Z.leb_le in H1. apply Z.ltb_lt in H2. lia.
      * left. by exists url.
    + split.
      * unfold http_error in Hf. rewrite Hst in Hf.
        apply andb_true_iff in Hf as [H1 H2].
        apply Z.leb_le in H1. apply Z.ltb_lt in H2. lia.
      * right. by exists url, hdrs, payload.
Qed.

Lemma main_error_reports_last_step_witness :
  ∃ dir,
    last (trace (main nothing_to_commit_world
                      (demo_state [("GITHUB_EVENT_NAME", "schedule");
                                   ("BRANCH", "main")])).2)
      = Some (EvRun dir ["git"; "commit"; "-m"; "Update indirect dependencies"])
    ∧ returncode_of nothing_to_commit_world
        (trace (main nothing_to_commit_world
                     (demo_state [("GITHUB_EVENT_NAME", "schedule");
                                  ("BRANCH", "main")])).2) = 1
    ∧ 1 ≠ 0.
Proof.
  apply (proj1 (main_error_reports_last_step
                  nothing_to_commit_world
                  (demo_state [("GITHUB_EVENT_NAME", "schedule");
                               ("BRANCH", "main")]))).
  vm_compute. reflexivity.
Defined.

(** X3: both flows do all their version-control work inside the checkout.
    On every path, every git command and every dependency query of
    [create_pr_with_push] and of [update_pr] runs with [REPO_DIR] as working
    directory, and every dependency query asks for runtime "3.11" with
    [REPO_DIR] as source directory. *)
Theorem flows_work_in_checkout (w : World) (b : string)
    (token bot_token : option string) (repo : string) :
  frames (in_checkout (REPO_DIR w)) (create_pr_with_push w b token repo)
  ∧ frames (in_checkout (REPO_DIR w)) (update_pr w b token bot_token).
Proof.
  split.
  - unfold create_pr_with_push, commit_message, create_commit, push,
      list_pr_for_branch, update_own_pr, create_pr, long_description.
    flow_go ltac:(by cbn).
  - unfold update_pr, get_pr_number, commit_message, create_commit, push,
      long_description, add_comment_to_pr.
    flow_go ltac:(by cbn).
Qed.

(** X4: the scheduled flow touches only its own branch and the pulls
    endpoint.  On every path of [create_pr_with_push]: a checkout or a push
    is for the working branch derived from the base branch, every push is a
    forced push to [origin]; every dependency query is against the base
    branch; the one GET is the open-PR lookup for the working branch; every
    POST goes to /repos/{repo}/pulls or /repos/{repo}/pulls/{number} and is
    authorised with the access token it was given ("token None" when there
    is none).  So it never pushes to another remote and never comments. *)
Theorem scheduled_flow_stays_on_its_branch (w : World) (b : string)
    (token : option string) (repo : string) :
  frames (scheduled_event b token) (create_pr_with_push w b token repo).
Proof.
  unfold create_pr_with_push, commit_message, create_commit, push,
    list_pr_for_branch, update_own_pr, create_pr, long_description.
  fold (scheduled_branch b).
  flow_go ltac:(first [ done
                      | by (split; intros ? [=])
                      | by eexists
                      | by (split; [done|eexists; left])
                      | by (split; [done|eexists; right; eexists]) ]).
Qed.

(** X5: the cross-fork flow only pushes to the bot remote and only comments.
    On every path of [update_pr]: a checkout or a push is for a branch
    "auto-update-dependencies/{...}/{branch}", every push is a forced push
    to [napari-bot]; the short query is against the branch and the full one
    against "origin/{branch}"; there is no GET; every POST is a comment on
    an issue, with a payload made of the body alone.  So it never creates
    or updates a pull request and never pushes to [origin]. *)
Theorem cross_fork_flow_only_comments (w : World) (b : string)
    (token bot_token : option string) :
  frames (cross_fork_event b) (update_pr w b token bot_token).
Proof.
  unfold update_pr, get_pr_number, commit_message, create_commit, push,
    long_description, add_comment_to_pr.
  flow_go ltac:(first [ done
                      | by (split; intros ? [=])
                      | by (split; [intros ? [=]|intros ? [= <-]; eexists])
                      | by (split; [intros ? [= <-]; eexists|intros ? [=]])
                      | by (split; [eexists _, _|eexists]) ]).
Qed.

(** X6: event kinds of the same flow are interchangeable.  "schedule" and
    "workflow_dispatch" lead to the same run, and so do "issue_comment" and
    "pull_request": replacing the event kind by the other one of its pair
    changes neither the outcome nor any interaction. *)
Theorem event_kinds_of_a_flow_are_interchangeable (w : World) (s : State)
    (e e' : string) :
  environ s !! "GITHUB_EVENT_NAME" = Some e →
  (e ∈ scheduled_kinds ∧ e' ∈ scheduled_kinds)
  ∨ (e ∈ cross_fork_kinds ∧ e' ∈ cross_fork_kinds) →
  same_run (main w (environ_set "GITHUB_EVENT_NAME" e' s)) (main w s).
Proof.
  intros He Hkinds.
  set (s' := environ_set "GITHUB_EVENT_NAME" e' s).
  assert (He' : environ s' !! "GITHUB_EVENT_NAME" = Some e')
    by apply lookup_insert_eq.
  assert (Hother : ∀ k, k ≠ "GITHUB_EVENT_NAME" → environ s' !! k = environ s !! k).
  { intros k Hk. cbn. by rewrite lookup_insert_ne. }
  destruct (environ s !! "BRANCH") as [b|] eqn:Hb.
  - assert (Hb' : environ s' !! "BRANCH" = Some b) by (by rewrite Hother).
    destruct Hkinds as [[Hin Hin']|[Hin Hin']].
    + rewrite (main_scheduled_eq w s' e' b He' Hin' Hb').
      rewrite (main_scheduled_eq w s e b He Hin Hb).
      rewrite Hother by done.
      apply blind_run, blind_bind; [apply setup_git_author_blind|intros _].
      by apply create_pr_with_push_blind.
    + rewrite (main_cross_fork_eq w s' e' b He' Hin' Hb').
      rewrite (main_cross_fork_eq w s e b He Hin Hb).
      apply blind_run, blind_bind; [apply setup_git_author_blind|intros _].
      by apply update_pr_blind.
  - assert (Hb' : environ s' !! "BRANCH" = None) by (by rewrite Hother).
    unfold main, mbind, M_bind, environ_getitem.
    by rewrite He, He', Hb, Hb'.
Qed.

Lemma event_kinds_of_a_flow_are_interchangeable_witness :
  same_run
    (main (demo_world [] ["six"] [])
          (environ_set "GITHUB_EVENT_NAME" "workflow_dispatch"
             (demo_state [("GITHUB_EVENT_NAME", "schedule"); ("BRANCH", "main")])))
    (main (demo_world [] ["six"] [])
          (demo_state [("GITHUB_EVENT_NAME", "schedule"); ("BRANCH", "main")])).
Proof.
  apply (event_kinds_of_a_flow_are_interchangeable
           (demo_world [] ["six"] [])
           (demo_state [("GITHUB_EVENT_NAME", "schedule"); ("BRANCH", "main")])
           "schedule" "workflow_dispatch").
  - reflexivity.
  - left. split; [by left|by right; left].
Defined.

(** X7: on a scheduled or manually dispatched run, the bot token has no
    influence: [main] reads GHA_TOKEN_2 at start-up and the scheduled flow
    never uses it, so setting it to any value changes neither the outcome
    nor any interaction. *)
Theorem scheduled_run_ignores_bot_token (w : World) (s : State)
    (e v : string) :
  environ s !! "GITHUB_EVENT_NAME" = Some e →
  e ∈ scheduled_kinds →
  same_run (main w (environ_set "GHA_TOKEN_2" v s)) (main w s).
Proof.
  intros He Hin.
  set (s' := environ_set "GHA_TOKEN_2" v s).
  assert (Hother : ∀ k', k' ≠ "GHA_TOKEN_2" → environ s' !! k' = environ s !! k').
  { intros k' Hk'. cbn. by rewrite lookup_insert_ne. }
  assert (He' : environ s' !! "GITHUB_EVENT_NAME" = Some e)
    by (by rewrite Hother).
  destruct (environ s !! "BRANCH") as [b|] eqn:Hb.
  - assert (Hb' : environ s' !! "BRANCH" = Some b) by (by rewrite Hother).
    rewrite (main_scheduled_eq w s' e b He' Hin Hb').
    rewrite (main_scheduled_eq w s e b He Hin Hb).
    rewrite Hother by done.
    apply blind_run, blind_bind; [apply setup_git_author_blind|intros _].
    by apply create_pr_with_push_blind.
  - assert (Hb' : environ s' !! "BRANCH" = None) by (by rewrite Hother).
    unfold main, mbind, M_bind, environ_getitem.
    by rewrite He, He', Hb, Hb'.
Qed.

Lemma scheduled_run_ignores_bot_token_witness :
  same_run
    (main (demo_world [] ["six"] [])
          (environ_set "GHA_TOKEN_2" "s3cr3t"
             (demo_state [("GITHUB_EVENT_NAME", "schedule"); ("BRANCH", "main")])))
    (main (demo_world [] ["six"] [])
          (demo_state [("GITHUB_EVENT_NAME", "schedule"); ("BRANCH", "main")])).
Proof.
  apply (scheduled_run_ignores_bot_token
           (demo_world [] ["six"] [])
           (demo_state [("GITHUB_EVENT_NAME", "schedule"); ("BRANCH", "main")])
           "schedule" "s3cr3t").
  - reflexivity.
  - by left.
Defined.

(** X8: on a comment or pull-request event, neither of the two tokens that
    [main] reads at start-up has any influence: the cross-fork flow never
    uses GHA_TOKEN or GHA_TOKEN_2 (its one request is authorised from
    GITHUB_TOKEN), so setting either of them to any value changes neither
    the outcome nor any interaction. *)
Theorem cross_fork_run_ignores_both_tokens (w : World) (s : State)
    (e k v : string) :
  environ s !! "GITHUB_EVENT_NAME" = Some e →
  e ∈ cross_fork_kinds →
  k ∈ ["GHA_TOKEN"; "GHA_TOKEN_2"] →
  same_run (main w (environ_set k v s)) (main w s).
Proof.
  intros He Hin Hk.
  assert (k ≠ "GITHUB_EVENT_NAME" ∧ k ≠ "BRANCH" ∧ k ≠ "PR_NUMBER"
          ∧ k ≠ "FULL_NAME" ∧ k ≠ "GITHUB_REPOSITORY" ∧ k ≠ "GITHUB_TOKEN")
    as (K1 & K2 & K3 & K4 & K5 & K6).
  { apply elem_of_cons in Hk as [->|Hk]; [by repeat split|].
    apply elem_of_cons in Hk as [->|Hk]; [by repeat split|].
    by apply elem_of_nil in Hk. }
  set (s' := environ_set k v s).
  assert (Hother : ∀ k', k' ≠ k → environ s' !! k' = environ s !! k').
  { intros k' Hk'. cbn. by rewrite lookup_insert_ne. }
  assert (He' : environ s' !! "GITHUB_EVENT_NAME" = Some e)
    by (by rewrite Hother).
  destruct (environ s !! "BRANCH") as [b|] eqn:Hb.
  - assert (Hb' : environ s' !! "BRANCH" = Some b) by (by rewrite Hother).
    rewrite (main_cross_fork_eq w s' e b He' Hin Hb').
    rewrite (main_cross_fork_eq w s e b He Hin Hb).
    apply blind_run, blind_bind; [apply setup_git_author_blind|intros _].
    by apply update_pr_blind.
  - assert (Hb' : environ s' !! "BRANCH" = None) by (by rewrite Hother).
    unfold main, mbind, M_bind, environ_getitem.
    by rewrite He, He', Hb, Hb'.
Qed.

Lemma cross_fork_run_ignores_both_tokens_witness :
  same_run
    (main (demo_world ["numpy"] ["numpy"] [])
          (environ_set "GHA_TOKEN" "s3cr3t"
             (demo_state [("GITHUB_EVENT_NAME", "issue_comment");
                          ("BRANCH", "feature-x"); ("PR_NUMBER", "42")])))
    (main (demo_world ["numpy"] ["numpy"] [])
          (demo_state [("GITHUB_EVENT_NAME", "issue_comment");
                       ("BRANCH", "feature-x"); ("PR_NUMBER", "42")])).
Proof.
  apply (cross_fork_run_ignores_both_tokens
           (demo_world ["numpy"] ["numpy"] [])
           (demo_state [("GITHUB_EVENT_NAME", "issue_comment");
                        ("BRANCH", "feature-x"); ("PR_NUMBER", "42")])
           "issue_comment" "GHA_TOKEN" "s3cr3t").
  - reflexivity.
  - by left.
  - by left.
Defined.

(** X9: the open-PR lookup filters on the owner of the repository.  For a
    repository "owner/name" whose owner part has no slash,
    [list_pr_for_branch] performs exactly one interaction, the GET of
    /repos/owner/name/pulls?state=open&head=owner:branch, and it behaves the
    same for every access token: the lookup is not authenticated. *)
Theorem lookup_filters_on_owner (w : World) (branch owner name : string)
    (token token' : option string) (s : State) :
  has_char "/" owner = false →
  (list_pr_for_branch w branch token (owner +:+ "/" +:+ name) s).2 =
    emit [EvGet (BASE_URL +:+ "/repos/" +:+ (owner +:+ "/" +:+ name)
                 +:+ "/pulls?state=open&head=" +:+ owner +:+ ":" +:+ branch)] s
  ∧ list_pr_for_branch w branch token (owner +:+ "/" +:+ name) s =
    list_pr_for_branch w branch token' (owner +:+ "/" +:+ name) s.
Proof.
  intros Hno. split; [|reflexivity].
  rewrite list_pr_for_branch_state. unfold lookup_call.
  change (owner +:+ "/" +:+ name) with (owner +:+ String "/" name).
  by rewrite split_cons_sep.
Qed.

Lemma lookup_filters_on_owner_witness :
  (list_pr_for_branch (demo_world [] [] []) "auto-update-dependencies" None
                      ("napari" +:+ "/" +:+ "napari") (demo_state [])).2 =
    emit [EvGet "https://api.github.com/repos/napari/napari/pulls?state=open&head=napari:auto-update-dependencies"]
         (demo_state []).
Proof.
  apply (proj1 (lookup_filters_on_owner
                  (demo_world [] [] []) "auto-update-dependencies"
                  "napari" "napari" None None (demo_state []) eq_refl)).
Defined.

(** X10: the organisation in the head filter of the lookup is always the
    first segment of the repository.  For every repository string,
    [list_pr_for_branch] performs exactly one interaction, the GET of
    /repos/{repo}/pulls?state=open&head={org}:{branch}, where [org] contains
    no slash and is the repository string itself or what precedes its first
    slash; taking the first piece of the split never fails. *)
Theorem lookup_organisation_is_first_segment (w : World)
    (branch : string) (token : option string) (repo : string) (s : State) :
  ∃ org,
    (list_pr_for_branch w branch token repo s).2 =
      emit [EvGet (BASE_URL +:+ "/repos/" +:+ repo +:+ "/pulls?state=open&head="
                   +:+ org +:+ ":" +:+ branch)] s
    ∧ has_char "/" org = false
    ∧ (repo = org ∨ ∃ rest, repo = org +:+ "/" +:+ rest).
Proof.
  destruct (split_head "/" repo) as (org & Hh & Hno & Hrepo).
  exists org. split; [|by split].
  rewrite list_pr_for_branch_state. unfold lookup_call. by rewrite Hh.
Qed.

(** X11: [create_pr] qualifies the head with the source account and changes
    nothing else.  The title is what [commit_message] returns for the base
    branch and the body what [long_description] returns after it; for every
    [source_user], [create_pr] sends exactly one POST, to /repos/{repo}/pulls
    with that title, that body, the base and maintainer_can_modify=True;
    its head is "{source_user}:{new_branch}" when [source_user] is not
    empty and [new_branch] when it is. *)
Theorem create_pr_qualifies_head (w : World) (base new_branch : string)
    (token : option string) (repo : string) (s : State) :
  is_dir w (REPO_DIR w) = true → is_dir w (cwd s) = true →
  ∃ title body,
    commit_message w base s =
      (Ok title, emit [EvQuery (REPO_DIR w) false base "3.11" (REPO_DIR w)] s)
    ∧ long_description w base
        (emit [EvQuery (REPO_DIR w) false base "3.11" (REPO_DIR w)] s) =
      (Ok body,
       emit [EvQuery (REPO_DIR w) false base "3.11" (REPO_DIR w);
             EvQuery (REPO_DIR w) true base "3.11" (REPO_DIR w)] s)
    ∧ ∀ source_user,
        posts (trace (create_pr w base new_branch token repo source_user s).2)
        = posts (trace s)
          ++ [(BASE_URL +:+ "/repos/" +:+ repo +:+ "/pulls",
               [("Authorization", "token " +:+ str_opt token)],
               [("title", PStr title); ("body", PStr body);
                ("head", PStr (if nonempty source_user
                               then source_user +:+ ":" +:+ new_branch
                               else new_branch));
                ("base", PStr base); ("maintainer_can_modify", PBool true)])].
Proof.
  intros Hrepo Hcur.
  destruct (title_and_body w Hrepo base s Hcur) as (title & body & Hc & Hl).
  exists title, body. split; [done|]. split; [done|].
  intros source_user.
  rewrite (create_pr_full w base new_branch token repo source_user s
             title body Hc Hl).
  cbn [snd emit trace]. unfold posts. by rewrite omap_app.
Qed.

Lemma create_pr_qualifies_head_witness :
  ∃ title body,
    commit_message (demo_world ["numpy"] ["numpy"] []) "main" (demo_state []) =
      (Ok title,
       emit [EvQuery "/home/runner/work/napari_repo" false "main" "3.11"
                     "/home/runner/work/napari_repo"] (demo_state []))
    ∧ ∀ source_user,
        posts (trace (create_pr (demo_world ["numpy"] ["numpy"] []) "main"
                                "auto-update-dependencies" (Some "t0k")
                                "alice/napari" source_user (demo_state [])).2)
        = posts (trace (demo_state []))
          ++ [("https://api.github.com/repos/alice/napari/pulls",
               [("Authorization", "token t0k")],
               [("title", PStr title); ("body", PStr body);
                ("head", PStr (if nonempty source_user
                               then source_user +:+ ":" +:+ "auto-update-dependencies"
                               else "auto-update-dependencies"));
                ("base", PStr "main"); ("maintainer_can_modify", PBool true)])].
Proof.
  destruct (create_pr_qualifies_head
              (demo_world ["numpy"] ["numpy"] []) "main"
              "auto-update-dependencies" (Some "t0k") "alice/napari"
              (demo_state []) eq_refl eq_refl)
    as (title & body & Hc & _ & Hp).
  by exists title, body.
Defined.

(** X12: the outcome of [create_pr] is decided by the answer to its POST.
    An error status raises [HTTPError] with that status; an accepted request
    whose answer has an "html_url" returns normally; an accepted request
    whose answer lacks "html_url" raises [KeyError], although the pull
    request has been created.  In all three cases the POST is the last and
    only request, after the two dependency queries. *)
Theorem create_pr_outcome (w : World) (base new_branch : string)
    (token : option string) (repo source_user : string) (s : State) :
  is_dir w (REPO_DIR w) = true → is_dir w (cwd s) = true →
  ∃ url hdrs payload,
    let new := [EvQuery (REPO_DIR w) false base "3.11" (REPO_DIR w);
                EvQuery (REPO_DIR w) true base "3.11" (REPO_DIR w);
                EvPost url hdrs payload] in
    let response := post_response w (trace s ++ new) in
    (create_pr w base new_branch token repo source_user s).2 = emit new s
    ∧ (create_pr w base new_branch token repo source_user s).1 =
      if http_error response then Raise (HTTPError (status_code response))
      else if bool_decide (is_Some (dict_get "html_url" (json response)))
           then Ok ()
           else Raise (KeyError "html_url").
Proof.
  intros Hrepo Hcur.
  destruct (title_and_body w Hrepo base s Hcur) as (title & body & Hc & Hl).
  pose proof (create_pr_full w base new_branch token repo source_user s
                title body Hc Hl) as E.
  cbv zeta in E. eexists _, _, _. cbv zeta. rewrite E. split; [reflexivity|].
  cbn [fst]. destruct (http_error _); [done|].
  by destruct (dict_get _ _).
Qed.

Lemma create_pr_outcome_witness :
  (create_pr nothing_to_commit_world "main" "auto-update-dependencies" None
             "napari/napari" "" (demo_state [])).1
  = Raise (KeyError "html_url").
Proof.
  destruct (create_pr_outcome nothing_to_commit_world "main"
              "auto-update-dependencies" None "napari/napari" ""
              (demo_state []) eq_refl eq_refl)
    as (url & hdrs & payload & _ & E).
  rewrite E. reflexivity.
Defined.

(** X14: configuration errors are found before either flow acts.  Without
    GITHUB_EVENT_NAME, or with it but without BRANCH, [main] raises
    [KeyError] for the missing variable without any interaction.  On a
    comment or pull-request event with BRANCH set, a missing PR_NUMBER
    raises [TypeError] and one that [int] refuses raises the [ValueError]
    of [int]; in both cases the run has done nothing but the author setup:
    no commit, no push, no request. *)
Theorem configuration_errors_come_first (w : World) (s : State) :
  (environ s !! "GITHUB_EVENT_NAME" = None →
   main w s = (Raise (KeyError "GITHUB_EVENT_NAME"), s))
  ∧ (is_Some (environ s !! "GITHUB_EVENT_NAME") →
     environ s !! "BRANCH" = None →
     main w s = (Raise (KeyError "BRANCH"), s))
  ∧ (∀ e b,
       environ s !! "GITHUB_EVENT_NAME" = Some e → e ∈ cross_fork_kinds →
       environ s !! "BRANCH" = Some b →
       (environ s !! "PR_NUMBER" = None
        ∨ ∃ lit, environ s !! "PR_NUMBER" = Some lit ∧ py_int w lit = None) →
       ∃ err new,
         main w s = (Raise err, emit new s)
         ∧ Forall is_author_setup new
         ∧ ((∀ h, returncode_of w h = 0) →
            match environ s !! "PR_NUMBER" with
            | None => ∃ msg, err = TypeError msg
            | Some lit => err = IntLiteralError lit
            end)).
Proof.
  split; [|split].
  - intros He. unfold main, mbind, M_bind, environ_getitem. by rewrite He.
  - intros [e He] Hb. unfold main, mbind, M_bind, environ_getitem.
    by rewrite He, Hb.
  - intros e b He Hin Hb Hbad.
    rewrite (main_cross_fork_eq w s e b He Hin Hb).
    unfold mbind at 1, M_bind at 1.
    destruct (author_setup_only w s) as (new & E & F).
    destruct (_setup_git_author w s) as [[[]|err] s1] eqn:Hs;
      cbn [snd] in E; subst s1.
    + assert (∃ err, get_pr_number w (emit new s) = (Raise err, emit new s)
                     ∧ match environ s !! "PR_NUMBER" with
                       | None => ∃ msg, err = TypeError msg
                       | Some lit => err = IntLiteralError lit
                       end) as (err & Hg & Herr).
      { unfold get_pr_number, mbind, M_bind, environ_get. cbn [environ emit].
        destruct Hbad as [Hn|(lit & Hn & Hp)]; rewrite Hn.
        - eexists. split; [reflexivity|]. by eexists.
        - rewrite Hp. eexists. by split. }
      exists err, new. unfold update_pr, mbind at 1, M_bind at 1.
      rewrite Hg. by repeat split.
    + exists err, new. repeat split; try done.
      intros Hgit. rewrite _setup_git_author_ok in Hs by done. done.
Qed.

Lemma configuration_errors_come_first_witness :
  ∃ err new,
    main (demo_world [] [] [])
         (demo_state [("GITHUB_EVENT_NAME", "issue_comment");
                      ("BRANCH", "feature-x"); ("PR_NUMBER", "#42")])
    = (Raise err,
       emit new (demo_state [("GITHUB_EVENT_NAME", "issue_comment");
                             ("BRANCH", "feature-x"); ("PR_NUMBER", "#42")]))
    ∧ Forall is_author_setup new
    ∧ err = IntLiteralError "#42".
Proof.
  destruct (proj2 (proj2 (configuration_errors_come_first
                            (demo_world [] [] [])
                            (demo_state [("GITHUB_EVENT_NAME", "issue_comment");
                                         ("BRANCH", "feature-x");
                                         ("PR_NUMBER", "#42")])))
              "issue_comment" "feature-x" eq_refl
              ltac:(by left) eq_refl
              ltac:(right; by exists "#42"))
    as (err & new & E & F & Herr).
  exists err, new. split; [exact E|]. split; [exact F|].
  apply Herr. reflexivity.
Defined.


(** X15: which repository the scheduled flow addresses.  On a run whose git
    commands succeed, the open-PR lookup of [create_pr_with_push] goes to
    the [repo] argument when it is not empty; otherwise to the value of
    GITHUB_REPOSITORY when that variable is set, even to the empty string;
    and to "napari/napari" only when the variable is unset. *)
Theorem scheduled_repository_choice (w : World) (b : string)
    (token : option string) (repo : string) (s : State) :
  is_dir w (REPO_DIR w) = true →
  is_dir w (cwd s) = true →
  (∀ h, returncode_of w h = 0) →
  ∃ message rest r target,
    create_pr_with_push w b token repo s =
      (r, emit (scheduled_git_steps w b (scheduled_branch b) message
                ++ lookup_call target (scheduled_branch b) :: rest) s)
    ∧ (repo ≠ "" → target = repo)
    ∧ (repo = "" → environ s !! "GITHUB_REPOSITORY" = None →
       target = "napari/napari")
    ∧ (repo = "" → ∀ v, environ s !! "GITHUB_REPOSITORY" = Some v → target = v).
Proof.
  intros Hrepo Hcur Hgit.
  destruct (create_pr_with_push_steps w Hrepo Hgit b token repo s Hcur)
    as (message & rest & r & E).
  exists message, rest, r, (effective_repo repo s).
  split; [exact E|]. unfold effective_repo, nonempty.
  split; [|split].
  - intros Hne. apply String.eqb_neq in Hne. by rewrite Hne.
  - intros -> Hnone. cbn. by rewrite Hnone.
  - intros -> v Hv. cbn. by rewrite Hv.
Qed.

Lemma scheduled_repository_choice_witness :
  ∃ message rest r target,
    create_pr_with_push (demo_world [] ["six"] []) "main" None ""
                        (demo_state [("GITHUB_REPOSITORY", "")]) =
      (r, emit (scheduled_git_steps (demo_world [] ["six"] []) "main"
                                    (scheduled_branch "main") message
                ++ lookup_call target (scheduled_branch "main") :: rest)
               (demo_state [("GITHUB_REPOSITORY", "")]))
    ∧ target = "".
Proof.
  destruct (scheduled_repository_choice
              (demo_world [] ["six"] []) "main" None ""
              (demo_state [("GITHUB_REPOSITORY", "")])
              eq_refl eq_refl (λ _, eq_refl))
    as (message & rest & r & target & E & _ & _ & Hset).
  exists message, rest, r, target. split; [exact E|].
  by apply Hset.
Defined.
